(** * SmartGCode: the G-code rewrite pass and the tool-comment extractor

    A shallow embedding of [src/UsefulMacros/SmartGCode.js].

    - The editor document ([editor.session.doc]) is a list of lines;
      [getLine], [replace] and [insertFullLines] are the only primitives
      the script uses and are modelled on that list.  A line of the editor
      never holds a line break.
    - Characters are 8-bit code units.  Each regular expression of the
      script is written out as a matcher anchored at a position, and
      [search] and [replace_first] move it along the line from the left.
    - [Number(text)] of a captured numeral is its exact decimal value or
      [NaN], and [undefined] is [None].  Comparisons and [toFixed(0)] are
      computed on the exact value: the rounding of a numeral to a double
      (two different numerals that round to the same double, numerals
      beyond the range of a double, the exponent form printed from 10^21
      on) is outside the model.
    - [SPINDLE_START_DELAY] is a constant of the script; the loop takes the
      delay as an argument so that both settings the script documents (a
      number of seconds, or 0 to disable) can be stated.
    - The second [for] loop of [OptimizeGCode] edits the document while it
      walks it.  It is modelled as the loop body on an explicit state,
      iterated under a bound that is proved never to be reached
      ([loop_never_exhausts]).  A call ends normally or in the [TypeError]
      of [curF.toFixed] on [undefined]; in both cases the document it
      leaves behind is part of the result.
    - [OnEnterJobMenu] and [OnEnterJobMenuPart2] call the callback or show
      a dialog and return.  A call is modelled by what it has done when it
      returns: [g_LastToolName] is passed in and out, a dialog carries the
      closure of its left button as a function of the [g_LastToolName] found
      when the button is pressed, and [laststatus.machine.position.offset.z]
      is an argument.  The sum [minZ + offset.z] is the exact sum. *)

From Stdlib Require Import String Ascii List Arith ZArith QArith Lia Bool.
From Stdlib Require Import Qround DecimalString DecimalPos DecimalN.
From stdpp Require Import base list.
Import ListNotations.

Local Open Scope string_scope.
Local Open Scope nat_scope.

(** ** Characters and strings *)

Module Str.

Definition is_digit (c : ascii) : bool :=
  (48 <=? nat_of_ascii c) && (nat_of_ascii c <=? 57).

(** The character class [[\d\.]]. *)
Definition is_numch (c : ascii) : bool :=
  is_digit c || Ascii.eqb c ".".

(** Line terminators, which [.] does not match. *)
Definition is_line_terminator (c : ascii) : bool :=
  Ascii.eqb c "010" || Ascii.eqb c "013".

(** [strip_prefix p s] is [Some r] when [s = p ++ r]. *)
Fixpoint strip_prefix (p s : string) : option string :=
  match p with
  | EmptyString => Some s
  | String a p' =>
      match s with
      | EmptyString => None
      | String b s' => if Ascii.eqb a b then strip_prefix p' s' else None
      end
  end.

(** [line.startsWith(p)] *)
Definition startsWith (line p : string) : bool :=
  match strip_prefix p line with Some _ => true | None => false end.

(** [line.indexOf(p) != -1] *)
Fixpoint contains (line p : string) : bool :=
  startsWith line p ||
  match line with
  | EmptyString => false
  | String _ rest => contains rest p
  end.

(** The longest prefix whose characters satisfy [f], and what follows it. *)
Fixpoint span (f : ascii -> bool) (s : string) : string * string :=
  match s with
  | EmptyString => (EmptyString, EmptyString)
  | String c s' =>
      if f c then let '(a, b) := span f s' in (String c a, b)
      else (EmptyString, s)
  end.

(** Leftmost position at which the anchored matcher [m] succeeds. *)
Fixpoint search {A} (m : string -> option A) (s : string) : option A :=
  match m s with
  | Some r => Some r
  | None =>
      match s with
      | EmptyString => None
      | String _ s' => search m s'
      end
  end.

(** [s.replace(re, repl)] for a pattern without the [g] flag: the leftmost
    match is replaced; [m] returns what follows the match. *)
Fixpoint replace_first (m : string -> option string) (repl s : string) : string :=
  match m s with
  | Some rest => repl ++ rest
  | None =>
      match s with
      | EmptyString => EmptyString
      | String c s' => String c (replace_first m repl s')
      end
  end.

(** Text inserted into a line at a column ([doc.replace] with an empty
    range); the column is clipped to the line as the editor does. *)
Fixpoint insert_at_column (col : nat) (text line : string) : string :=
  match col, line with
  | O, _ => text ++ line
  | S _, EmptyString => text
  | S col', String c rest => String c (insert_at_column col' text rest)
  end.

End Str.

(** ** Numbers *)

Module Num.

Inductive jsnum : Type :=
| NaN
| Val (q : Q).

Definition digit_val (c : ascii) : N := N.of_nat (nat_of_ascii c - 48).

(** Value of a run of decimal digits, most significant first. *)
Fixpoint digits_val (acc : N) (s : string) : N :=
  match s with
  | EmptyString => acc
  | String c s' => digits_val (10 * acc + digit_val c)%N s'
  end.

Definition pow10 (n : nat) : positive := Nat.iter n (Pos.mul 10) 1%positive.

Fixpoint all_digits (s : string) : bool :=
  match s with
  | EmptyString => true
  | String c s' => Str.is_digit c && all_digits s'
  end.

(** [Number(text)] for [text] an unsigned numeral made of digits and dots:
    digits with an optional fraction, or a dot followed by digits; anything
    else (no digit at all, a second dot) is [NaN]. *)
Definition unsigned_decimal (s : string) : option Q :=
  let '(ip, rest) := Str.span Str.is_digit s in
  match rest with
  | EmptyString =>
      match ip with
      | EmptyString => None
      | _ => Some (Z.of_N (digits_val 0 ip) # 1)
      end
  | String c fp =>
      if Ascii.eqb c "." && all_digits fp
         && negb (String.eqb ip "" && String.eqb fp "")
      then Some (Z.of_N (digits_val (digits_val 0 ip) fp) # pow10 (String.length fp))
      else None
  end.

(** [Number(text)] for a captured numeral with an optional leading minus.
    The value is the exact decimal value of the numeral; JavaScript keeps
    the double nearest to it (and Infinity beyond the range of a double), so
    the two differ for numerals that are not doubles. *)
Definition Number (s : string) : jsnum :=
  match s with
  | String "-" u =>
      match unsigned_decimal u with Some q => Val (- q) | None => NaN end
  | _ =>
      match unsigned_decimal s with Some q => Val q | None => NaN end
  end.

(** [Number(text)] for a capture of [\d+]. *)
Definition NumberOfDigits (s : string) : N := digits_val 0 s.

(** An operand that may be [undefined] is converted by [ToNumber]:
    [undefined] becomes [NaN]. *)
Definition to_number (v : option jsnum) : jsnum :=
  match v with Some x => x | None => NaN end.

(** [a < b] and [a >= b]; any comparison with [NaN] is false. *)
Definition less (a b : option jsnum) : bool :=
  match to_number a, to_number b with
  | Val x, Val y => negb (Qle_bool y x)
  | _, _ => false
  end.

Definition at_least (a b : option jsnum) : bool :=
  match to_number a, to_number b with
  | Val x, Val y => Qle_bool y x
  | _, _ => false
  end.

Definition string_of_N (n : N) : string :=
  NilEmpty.string_of_uint (N.to_uint n).

(** [x.toFixed(0)]: the nearest integer, ties upwards in magnitude, with the
    sign in front (values from 10^21 on print in exponent form in
    JavaScript and are outside the model). *)
Definition toFixed0 (x : jsnum) : string :=
  match x with
  | NaN => "NaN"
  | Val q =>
      if Qle_bool 0 q
      then string_of_N (Z.to_N (Qfloor (q + (1 # 2))))
      else "-" ++ string_of_N (Z.to_N (Qfloor (- q + (1 # 2))))
  end.

End Num.

Import Str Num.

(** ** The patterns of the script *)

Module Re.

(** A capture of [[\d\.]+], with [-?] in front when [sign] holds.  The
    classes [-] and [[\d\.]] are disjoint, so the greedy match is the only
    one. *)
Definition capture_num (sign : bool) (s : string) : option string :=
  let unsigned t :=
    match fst (span is_numch t) with
    | EmptyString => None
    | run => Some run
    end in
  match s with
  | String "-" t =>
      if sign then option_map (String "-") (unsigned t) else None
  | _ => unsigned s
  end.

(** [/T\d+ /], anchored: what follows the match. *)
Definition T_index (s : string) : option string :=
  match s with
  | String "T" t =>
      match span is_digit t with
      | (String _ _, String " " rest) => Some rest
      | _ => None
      end
  | _ => None
  end.

(** The text after the last [-] that [.*-] can reach: the last dash before
    the first line terminator.  Of the characters that [.] does not match,
    only LF and CR exist among 8-bit code units; U+2028 and U+2029 cannot
    occur in a line of this model. *)
Fixpoint after_last_dash (t : string) : option string :=
  match t with
  | EmptyString => None
  | String c t' =>
      if is_line_terminator c then None
      else match after_last_dash t' with
           | Some r => Some r
           | None => if Ascii.eqb c "-" then Some t' else None
           end
  end.

(** [/ ZMIN.*-/], anchored: what follows the match. *)
Definition ZMIN_tail (s : string) : option string :=
  match strip_prefix " ZMIN" s with
  | Some t => after_last_dash t
  | None => None
  end.

(** [/ZMIN=(-?[\d\.]+)/], anchored: the capture. *)
Definition ZMIN_value (s : string) : option string :=
  match strip_prefix "ZMIN=" s with
  | Some t => capture_num true t
  | None => None
  end.

(** [/^G(\d+)/]: the capture and what follows the match. *)
Definition G_word (line : string) : option (string * string) :=
  match line with
  | String "G" t =>
      match span is_digit t with
      | (String c ds, rest) => Some (String c ds, rest)
      | _ => None
      end
  | _ => None
  end.

(** [/Z(-?[\d\.]+)/], anchored: the capture. *)
Definition Z_word (s : string) : option string :=
  match s with
  | String "Z" t => capture_num true t
  | _ => None
  end.

(** [/F([\d\.]+)/], anchored: the capture. *)
Definition F_word (s : string) : option string :=
  match s with
  | String "F" t => capture_num false t
  | _ => None
  end.

End Re.

(** ** The document *)

Abbreviation document := (list string).

(** [doc.getLine(row)]: the line, or the empty string out of range. *)
Definition getLine (doc : document) (row : nat) : string :=
  default EmptyString (doc !! row).

(** [doc.insertFullLines(row, [text])]: the row is clipped to the document,
    the line lands at that index and the following lines move down. *)
Definition insertFullLines (row : nat) (text : string) (doc : document) : document :=
  (take row doc ++ text :: drop row doc)%list.

(** [doc.replace] of a whole line, columns [0] to [line.length]. *)
Definition replaceLine (row : nat) (text : string) (doc : document) : document :=
  <[row := text]> doc.

(** [doc.replace] with the empty range at [(row, column)]: an insertion
    into the line. *)
Definition insertText (row column : nat) (text : string) (doc : document) : document :=
  <[row := insert_at_column column text (getLine doc row)]> doc.

(** ** The line classifier *)

Definition BLOCK_START : string := "(When using Fusion 360 for Personal Use".
Definition BLOCK_DONE : string := "(OPTIMIZED: When using Fusion 360 for Personal Use".

Definition is_comment (line : string) : bool := startsWith line "(".

(** [line.match(/^G(\d+)/)], then [Number] of the capture. *)
Definition line_G (line : string) : option N :=
  option_map (fun m => NumberOfDigits (fst m)) (Re.G_word line).

(** [line.match(/Z(-?[\d\.]+)/)], then [Number] of the capture. *)
Definition line_Z (line : string) : option jsnum :=
  option_map Number (search Re.Z_word line).

(** [line.match(/F([\d\.]+)/)], then [Number] of the capture. *)
Definition line_F (line : string) : option jsnum :=
  option_map Number (search Re.F_word line).

(** [if (v != undefined) { cur = v; }] *)
Definition overwrite {A} (v cur : option A) : option A :=
  match v with Some _ => v | None => cur end.

(** [line.replace(/^G(\d+)/, "G0")] *)
Definition to_rapid (line : string) : string :=
  match Re.G_word line with
  | Some (_, rest) => "G0" ++ rest
  | None => line
  end.

(** ** GetToolInfo *)

Record ToolInfo := { toolName : string; minZ : option jsnum }.

Definition tool_of_line (line : string) : ToolInfo :=
  {| toolName :=
       replace_first Re.ZMIN_tail "" (replace_first Re.T_index "" line);
     minZ := option_map Number (search Re.ZMIN_value line) |}.

(** The loop [for (lineIdx = 0; lineIdx < lineCount; lineIdx++)] with
    [remaining = lineCount - lineIdx] iterations left. *)
Fixpoint GetToolInfo_from (doc : document) (remaining lineIdx : nat) : option ToolInfo :=
  match remaining with
  | O => None
  | S remaining' =>
      let line := getLine doc lineIdx in
      if startsWith line "(T" then Some (tool_of_line line)
      else GetToolInfo_from doc remaining' (S lineIdx)
  end.

Definition GetToolInfo (doc : document) : option ToolInfo :=
  GetToolInfo_from doc (length doc) 0.

(** ** OptimizeGCode *)

(** The first loop: look for the block-start line. *)
Inductive marker_scan : Type :=
| Marked (doc' : document)   (* found, tagged, [optimize = true] *)
| AlreadyOptimized           (* [return] on the tagged line *)
| NoMarker.                  (* the loop ran to the end *)

Fixpoint find_marker (doc : document) (remaining lineIdx : nat) : marker_scan :=
  match remaining with
  | O => NoMarker
  | S remaining' =>
      let line := getLine doc lineIdx in
      if startsWith line BLOCK_START
      then Marked (insertText lineIdx 1 "OPTIMIZED: " doc)
      else if startsWith line BLOCK_DONE then AlreadyOptimized
      else find_marker doc remaining' (S lineIdx)
  end.

(** The variables of the second loop. *)
Record state := mkState {
  doc : document;
  lineIdx : nat;
  lineCount : nat;
  curZ : option jsnum;
  curG : option N;
  curF : option jsnum;
  feedZ : option jsnum;
  restoreF : bool;
  optimized : bool
}.

Definition initial (d : document) (count : nat) : state :=
  mkState d 0 count None None None None false false.

(** How one pass through the loop body ends: it falls through (or
    [continue]s) to the increment, or [curF.toFixed] is called on
    [undefined]. *)
Inductive completion : Type :=
| Normal (s : state)
| TypeError (s : state).

Definition is_cutting (g : option N) : bool :=
  match g with Some 1%N => true | _ => false end.

Definition is_defined {A} (v : option A) : bool :=
  match v with Some _ => true | None => false end.

(** [curG == 1 && feedZ == undefined && curZ != undefined
     && lastZ != undefined && curZ < lastZ] *)
Definition first_plunge (g : option N) (fz z lastZ : option jsnum) : bool :=
  is_cutting g && negb (is_defined fz) && is_defined z
  && is_defined lastZ && less z lastZ.

(** [curG == 1 && feedZ != undefined && curZ >= feedZ && curZ >= lastZ] *)
Definition at_or_above (g : option N) (fz z lastZ : option jsnum) : bool :=
  is_cutting g && is_defined fz && at_least z fz && at_least z lastZ.

(** [line.replace(...)] when the line has a G word, ["G0 " + line] when it
    has none. *)
Definition promoted (line : string) : string :=
  if is_defined (line_G line) then to_rapid line else "G0 " ++ line.

Definition body (delay : N) (s : state) : completion :=
  let line := getLine (doc s) (lineIdx s) in
  let feedZ0 := if startsWith line BLOCK_START then None else feedZ s in
  if startsWith line "(" then
    Normal (mkState (doc s) (lineIdx s) (lineCount s)
              (curZ s) (curG s) (curF s) feedZ0 (restoreF s) (optimized s))
  else if (0 <? delay)%N && contains line "M3" then
    Normal (mkState
              (insertFullLines (lineIdx s + 1) ("G4 P" ++ string_of_N delay) (doc s))
              (lineIdx s + 1) (lineCount s + 1)
              (curZ s) (curG s) (curF s) feedZ0 (restoreF s) (optimized s))
  else
    let lastZ := curZ s in
    let curG' := overwrite (line_G line) (curG s) in
    let curZ' := overwrite (line_Z line) (curZ s) in
    let curF' := overwrite (line_F line) (curF s) in
    if first_plunge curG' feedZ0 curZ' lastZ then
      Normal (mkState (doc s) (lineIdx s) (lineCount s)
                curZ' curG' curF' curZ' (restoreF s) (optimized s))
    else if at_or_above curG' feedZ0 curZ' lastZ then
      Normal (mkState (replaceLine (lineIdx s) (promoted line) (doc s))
                (lineIdx s) (lineCount s)
                curZ' curG' curF' feedZ0 true true)
    else if restoreF s then
      match curF' with
      | Some f =>
          Normal (mkState
                    (insertFullLines (lineIdx s) ("G1 F" ++ toFixed0 f) (doc s))
                    (lineIdx s) (lineCount s + 1)
                    curZ' curG' curF' feedZ0 false (optimized s))
      | None =>
          TypeError (mkState (doc s) (lineIdx s) (lineCount s)
                       curZ' curG' curF' feedZ0 (restoreF s) (optimized s))
      end
    else
      Normal (mkState (doc s) (lineIdx s) (lineCount s)
                curZ' curG' curF' feedZ0 (restoreF s) (optimized s)).

(** The increment [lineIdx++] of the [for] statement. *)
Definition advance (s : state) : state :=
  mkState (doc s) (S (lineIdx s)) (lineCount s)
    (curZ s) (curG s) (curF s) (feedZ s) (restoreF s) (optimized s).

Inductive outcome : Type :=
| Completed     (* the loop ran to its end *)
| Raised        (* a TypeError left the function *)
| Exhausted.    (* the iteration bound of the model was reached *)

Fixpoint loop (delay : N) (fuel : nat) (s : state) : state * outcome :=
  if lineIdx s <? lineCount s then
    match fuel with
    | O => (s, Exhausted)
    | S fuel' =>
        match body delay s with
        | Normal s' => loop delay fuel' (advance s')
        | TypeError s' => (s', Raised)
        end
    end
  else (s, Completed).

(** What a call leaves behind: the document, how the call ended, and
    whether the "optimized" message was logged. *)
Record result := mkResult {
  final_doc : document;
  status : outcome;
  logged : bool
}.

(** A line is visited at most twice, hence the bound. *)
Definition OptimizeGCode_with (delay : N) (d : document) : result :=
  match find_marker d (length d) 0 with
  | Marked d' =>
      let '(s, o) := loop delay (2 * length d) (initial d' (length d)) in
      mkResult (doc s) o
        (match o with Completed => optimized s | _ => false end)
  | AlreadyOptimized | NoMarker => mkResult d Completed false
  end.

Definition SPINDLE_START_DELAY : N := 3.

Definition OptimizeGCode (d : document) : result :=
  OptimizeGCode_with SPINDLE_START_DELAY d.

(** The rows the loop reads, in order, with the text found there. *)
Fixpoint visits (delay : N) (fuel : nat) (s : state) : list (nat * string) :=
  if lineIdx s <? lineCount s then
    match fuel with
    | O => []
    | S fuel' =>
        (lineIdx s, getLine (doc s) (lineIdx s)) ::
        match body delay s with
        | Normal s' => visits delay fuel' (advance s')
        | TypeError _ => []
        end
    end
  else [].

(** The comment lines of a document, in order. *)
Definition comments (d : document) : list string := List.filter is_comment d.

Definition completion_state (c : completion) : state :=
  match c with Normal s => s | TypeError s => s end.

(** The iteration bound: twice the lines left, plus one while a feed
    restore is pending. *)
Definition budget (s : state) : nat :=
  2 * (lineCount s - lineIdx s) + (if restoreF s then 1 else 0).

(** The first loop seen on the list of lines instead of row numbers. *)
Fixpoint scan_lines (l : document) : marker_scan :=
  match l with
  | [] => NoMarker
  | x :: r =>
      if startsWith x BLOCK_START
      then Marked (insert_at_column 1 "OPTIMIZED: " x :: r)
      else if startsWith x BLOCK_DONE then AlreadyOptimized
      else match scan_lines r with
           | Marked r' => Marked (x :: r')
           | k => k
           end
  end.

(** How a scan ended, without the document. *)
Definition scan_kind (m : marker_scan) : option bool :=
  match m with
  | Marked _ => Some true
  | AlreadyOptimized => Some false
  | NoMarker => None
  end.

(** Neither the block-start prefix nor its tagged form. *)
Definition unmarked (line : string) : Prop :=
  startsWith line BLOCK_START = false /\ startsWith line BLOCK_DONE = false.

(** The tool-comment search seen on the list of lines. *)
Fixpoint first_tool_line (l : document) : option string :=
  match l with
  | [] => None
  | x :: r => if startsWith x "(T" then Some x else first_tool_line r
  end.

(** The rows read by the second loop of a call, in order. *)
Definition OptimizeGCode_visits (d : document) : list (nat * string) :=
  match find_marker d (length d) 0 with
  | Marked d' => visits SPINDLE_START_DELAY (2 * length d) (initial d' (length d))
  | AlreadyOptimized | NoMarker => []
  end.

(** ** Sample programs *)

Definition scenario : document :=
  [ "(When using Fusion 360 for Personal Use...)";
    "G1 Z-5 F100";
    "G1 Z-5 X10";
    "G1 Z0 X20" ].

(** A retract followed by a plunge, with no F word anywhere. *)
Definition no_feed_program : document :=
  [ "(When using Fusion 360 for Personal Use...)";
    "G1 Z0";
    "G1 Z-5";
    "G1 Z0";
    "G1 Z-5" ].

(** A retract to Z5 followed by a descent to Z0, above the feed height. *)
Definition descent_program : document :=
  [ "(When using Fusion 360 for Personal Use...)";
    "G1 Z5 F100";
    "G1 Z-5";
    "G1 Z5";
    "G1 Z0" ].

(** A program that ends with the program-end word M30. *)
Definition program_end : document :=
  [ "(When using Fusion 360 for Personal Use...)";
    "M30" ].

(** ** The tracked words *)

(** The lines on which the loop body reaches the G, Z and F patterns:
    not a comment and, when the delay is positive, without "M3". *)
Definition tracked (delay : N) (line : string) : bool :=
  negb (is_comment line) && negb ((0 <? delay)%N && contains line "M3").

(** The last value the pattern [f] finds on a tracked line of [lines]. *)
Definition sticky {A} (f : string -> option A) (delay : N) (lines : document) : option A :=
  fold_left (fun acc l => if tracked delay l then overwrite (f l) acc else acc)
    lines None.

(** The reading under which a numeral that is not well formed counts as
    absent. *)
Definition well_formed (v : option jsnum) : option jsnum :=
  match v with
  | Some NaN => None
  | _ => v
  end.

(** The variables agree with the first [k] lines of the document [d0]. *)
Definition agrees (delay : N) (d0 : document) (k : nat) (s : state) : Prop :=
  curZ s = sticky line_Z delay (take k d0) /\
  curG s = sticky line_G delay (take k d0) /\
  curF s = sticky line_F delay (take k d0).

(** The loop invariant: the rows from [lineIdx] on are the lines of [d0] from
    some [k] on, and the variables agree with the lines before [k], or,
    right after a feed restore, with the lines up to [k]. *)
Definition synced (delay : N) (d0 : document) (s : state) : Prop :=
  lineCount s = length (doc s) /\
  exists k,
    drop (lineIdx s) (doc s) = drop k d0 /\
    (agrees delay d0 k s \/ (restoreF s = false /\ agrees delay d0 (S k) s)).

(** ** The lines the loop writes *)

(** The line inserted after a spindle start. *)
Definition dwell_line (delay : N) : string := "G4 P" ++ string_of_N delay.

(** The line inserted before the first command that is not promoted. *)
Definition restore_line (f : jsnum) : string := "G1 F" ++ toFixed0 f.



(** The first line the loop reads G, Z and F words from. *)
Definition first_command (delay : N) (d : document) : option string :=
  List.find (tracked delay) d.

(** ** Entering the job menu *)

Definition MACHINE_MIN_Z : option jsnum := Some (Val (-102 # 1)).

(** [a + b], where [a] may be [undefined]; the exact sum, where
    JavaScript rounds the sum to a double. *)
Definition plus (a : option jsnum) (b : jsnum) : jsnum :=
  match to_number a, b with
  | Val x, Val y => Val (x + y)
  | _, _ => NaN
  end.

(** What a call of [OnEnterJobMenu] or of a dialog button has done when it
    returns: it has called [callback], leaving [g_LastToolName] as given, or
    it has shown a dialog, whose left button runs a closure that reads
    [g_LastToolName] when it is pressed.  The right buttons carry no
    closure. *)
Inductive response : Type :=
| Entered (g_LastToolName : option string)
| Dialog (title : string) (text : list string) (lButton rButton : string)
    (onLeft : option string -> response).

Definition OnEnterJobMenuPart2 (toolName : string) (g_LastToolName : option string) : response :=
  match g_LastToolName with
  | None => Entered (Some toolName)
  | Some last =>
      if String.eqb last toolName then Entered (Some toolName)
      else Dialog "New tool requested" ["Tool change"; "complete?"] "!Yes" "No"
             (fun _ => Entered (Some toolName))
  end.

(** [MACHINE_MIN_Z == undefined || minZ + offset.z >= MACHINE_MIN_Z] *)
Definition z_allowed (limit minZ : option jsnum) (offsetZ : jsnum) : bool :=
  negb (is_defined limit) || at_least (Some (plus minZ offsetZ)) limit.

(** The editor document after the call, and what the call did; [None] when
    the TypeError of [OptimizeGCode] left the function. *)
Record job_menu := mkJobMenu {
  editor_doc : document;
  reply : option response
}.

(** [offsetZ] is [laststatus.machine.position.offset.z]. *)
Definition OnEnterJobMenu_with (delay : N) (limit : option jsnum) (offsetZ : jsnum)
    (d : document) (g_LastToolName : option string) : job_menu :=
  let r := OptimizeGCode_with delay d in
  match status r with
  | Completed =>
      mkJobMenu (final_doc r)
        (Some
           match GetToolInfo (final_doc r) with
           | None => Entered g_LastToolName
           | Some toolInfo =>
               if z_allowed limit (minZ toolInfo) offsetZ
               then OnEnterJobMenuPart2 (toolName toolInfo) g_LastToolName
               else Dialog "Low Z Warning" ["Gcode exceeds the"; "Z axis limit."]
                      "!IGNORE" "Back"
                      (fun g => OnEnterJobMenuPart2 (toolName toolInfo) g)
           end)
  | Raised | Exhausted => mkJobMenu (final_doc r) None
  end.

Definition OnEnterJobMenu (offsetZ : jsnum) (d : document)
    (g_LastToolName : option string) : job_menu :=
  OnEnterJobMenu_with SPINDLE_START_DELAY MACHINE_MIN_Z offsetZ d g_LastToolName.

(** The remembered tool once the job menu is entered, when the user presses
    the left button of every dialog and nothing else changes
    [g_LastToolName] in between. *)
Fixpoint accept_all (r : response) (g : option string) : option string :=
  match r with
  | Entered g' => g'
  | Dialog _ _ _ _ onLeft => accept_all (onLeft g) g
  end.

(** The titles of the dialogs on the way there. *)
Fixpoint dialogs (r : response) (g : option string) : list string :=
  match r with
  | Entered _ => []
  | Dialog title _ _ _ onLeft => title :: dialogs (onLeft g) g
  end.

(** The dialog of the tool check for the tool [t] when the tool [g] is
    remembered: none when nothing or the same name is remembered. *)
Definition tool_change_dialogs (t : ToolInfo) (g : option string) : list string :=
  match g with
  | Some last => if String.eqb last (toolName t) then [] else ["New tool requested"]
  | None => []
  end.

(** A document with the dwell line after each spindle line, and nothing
    else changed. *)
Definition with_dwells (delay : N) (l : document) : document :=
  flat_map (fun x => if tracked delay x || is_comment x
                     then [x] else [x; dwell_line delay]) l.

(** No line that the loop reads words from starts with the G1 word. *)
Definition no_cutting_word (delay : N) (l : document) : Prop :=
  Forall (fun x => tracked delay x = true -> is_cutting (line_G x) = false) l.

(** The loop invariant on a program without cutting moves. *)
Definition quiet (delay : N) (d0 : document) (s : state) : Prop :=
  lineCount s = length (doc s) /\
  is_cutting (curG s) = false /\ restoreF s = false /\ optimized s = false /\
  exists k,
    drop (lineIdx s) (doc s) = drop k d0 /\
    take (lineIdx s) (doc s) = with_dwells delay (take k d0).

(** ** Basic facts on strings and documents *)

Local Open Scope list_scope.

Lemma strip_prefix_app p s r :
  strip_prefix p s = Some r <-> s = (p ++ r)%string.
Proof.
  revert s; induction p as [|a p IH]; intros s; simpl.
  - split; [intros [= ->] | intros ->]; reflexivity.
  - destruct s as [|b s]; [split; discriminate|].
    destruct (Ascii.eqb_spec a b) as [->|Hab].
    + rewrite IH. split; [intros -> | intros [= ->]]; reflexivity.
    + split; [discriminate | intros [= -> _]; contradiction].
Qed.

Lemma startsWith_app line p :
  startsWith line p = true <-> exists r, line = (p ++ r)%string.
Proof.
  unfold startsWith. destruct (strip_prefix p line) as [r|] eqn:E.
  - apply strip_prefix_app in E. split; eauto.
  - split; [discriminate|]. intros [r Hr].
    apply strip_prefix_app in Hr. congruence.
Qed.

Lemma startsWith_first line a p :
  startsWith line (String a p) = true -> startsWith line (String a "") = true.
Proof.
  unfold startsWith; simpl. destruct line as [|b l]; [discriminate|].
  destruct (Ascii.eqb a b); [reflexivity | discriminate].
Qed.

Lemma block_start_is_comment line :
  startsWith line BLOCK_START = true -> is_comment line = true.
Proof. apply startsWith_first. Qed.

Lemma block_done_is_comment line :
  startsWith line BLOCK_DONE = true -> is_comment line = true.
Proof. apply startsWith_first. Qed.

Lemma tagged_is_done line :
  startsWith line BLOCK_START = true ->
  startsWith (insert_at_column 1 "OPTIMIZED: " line) BLOCK_DONE = true /\
  startsWith (insert_at_column 1 "OPTIMIZED: " line) BLOCK_START = false.
Proof.
  intros H. apply startsWith_app in H as [r ->]. split; reflexivity.
Qed.

Lemma promoted_not_comment line : is_comment (promoted line) = false.
Proof.
  unfold promoted, line_G, to_rapid.
  destruct (Re.G_word line) as [[ds rest]|]; reflexivity.
Qed.

Lemma getLine_drop (d : document) i x r :
  drop i d = x :: r -> getLine d i = x.
Proof.
  intros H. unfold getLine.
  pose proof (lookup_drop d i 0) as L.
  rewrite H, Nat.add_0_r in L. simpl in L. rewrite <- L. reflexivity.
Qed.

Lemma drop_in_range (d : document) i :
  i < length d -> exists r, drop i d = getLine d i :: r.
Proof.
  intros H. destruct (drop i d) as [|x r] eqn:E.
  - apply (f_equal length) in E. rewrite length_drop in E. simpl in E. lia.
  - exists r. rewrite (getLine_drop _ _ _ _ E). reflexivity.
Qed.

Lemma length_insertFullLines row text (d : document) :
  length (insertFullLines row text d) = S (length d).
Proof.
  unfold insertFullLines. rewrite length_app, length_take. simpl.
  rewrite length_drop. lia.
Qed.

Lemma comments_insertFullLines row text d :
  is_comment text = false ->
  comments (insertFullLines row text d) = comments d.
Proof.
  intros H. unfold comments, insertFullLines.
  rewrite List.filter_app. simpl. rewrite H.
  rewrite <- List.filter_app, take_drop. reflexivity.
Qed.

Lemma comments_replaceLine row text d :
  is_comment (getLine d row) = false -> is_comment text = false ->
  comments (replaceLine row text d) = comments d.
Proof.
  unfold replaceLine, getLine, comments.
  revert row; induction d as [|x d IH]; intros row Hold Hnew; [reflexivity|].
  destruct row as [|row]; simpl in *.
  - rewrite Hold, Hnew. reflexivity.
  - rewrite (IH row Hold Hnew). reflexivity.
Qed.

(** ** One pass through the loop body *)


(** Case analysis following the branches of [body], in a hypothesis. *)
Ltac body_cases_in H :=
  unfold body in H;
  repeat match type of H with
         | context [if ?b then _ else _] => destruct b eqn:?
         | context [match ?o with Some _ => _ | None => _ end] =>
             destruct o eqn:?
         end.

(** Case analysis following the branches of [body]. *)
Ltac body_cases :=
  unfold body;
  repeat match goal with
         | |- context [if ?b then _ else _] => destruct b eqn:?
         | |- context [match ?o with Some _ => _ | None => _ end] =>
             destruct o eqn:?
         end.


Lemma body_budget delay s s' :
  lineIdx s < lineCount s ->
  body delay s = Normal s' ->
  budget (advance s') < budget s.
Proof.
  intros Hlt. unfold budget.
  body_cases; intros [= <-]; simpl;
    destruct (restoreF s); try discriminate; lia.
Qed.

Lemma loop_within_budget delay fuel s :
  budget s <= fuel -> snd (loop delay fuel s) <> Exhausted.
Proof.
  revert s; induction fuel as [|fuel IH]; intros s Hb; simpl.
  - destruct (Nat.ltb_spec (lineIdx s) (lineCount s)); [|discriminate].
    unfold budget in Hb. lia.
  - destruct (Nat.ltb_spec (lineIdx s) (lineCount s)); [|discriminate].
    destruct (body delay s) as [s'|s'] eqn:Hbody; [|discriminate].
    apply IH. pose proof (body_budget _ _ _ H Hbody). lia.
Qed.

(** The pass returns or raises; the bound of the model is never reached. *)
Lemma loop_never_exhausts delay d n :
  snd (loop delay (2 * n) (initial d n)) <> Exhausted.
Proof. apply loop_within_budget. unfold budget; simpl. lia. Qed.

Lemma OptimizeGCode_with_returns delay d :
  status (OptimizeGCode_with delay d) <> Exhausted.
Proof.
  unfold OptimizeGCode_with.
  destruct (find_marker d (length d) 0); try discriminate.
  pose proof (loop_never_exhausts delay doc' (length d)) as H.
  destruct (loop delay (2 * length d) (initial doc' (length d))) as [s o].
  exact H.
Qed.

(** The loop body never touches, adds or removes a comment line. *)
Lemma body_comments delay s :
  comments (doc (completion_state (body delay s))) = comments (doc s).
Proof.
  body_cases; simpl;
    first [ reflexivity
          | apply comments_insertFullLines; reflexivity
          | apply comments_replaceLine;
            [ assumption | apply promoted_not_comment ] ].
Qed.

Lemma loop_comments delay fuel s :
  comments (doc (fst (loop delay fuel s))) = comments (doc s).
Proof.
  revert s; induction fuel as [|fuel IH]; intros s; simpl.
  - destruct (lineIdx s <? lineCount s); reflexivity.
  - destruct (lineIdx s <? lineCount s); [|reflexivity].
    pose proof (body_comments delay s) as Hb.
    destruct (body delay s) as [s'|s']; simpl in *.
    + rewrite IH. exact Hb.
    + exact Hb.
Qed.

(** ** The first loop *)

Arguments insert_at_column : simpl never.

Lemma find_marker_scan (post pre : document) :
  find_marker (pre ++ post) (length post) (length pre) =
  match scan_lines post with
  | Marked post' => Marked (pre ++ post')
  | k => k
  end.
Proof.
  revert pre; induction post as [|x r IH]; intros pre; [reflexivity|].
  assert (Hget : getLine (pre ++ x :: r) (length pre) = x).
  { apply getLine_drop with (r := r). rewrite drop_app_length. reflexivity. }
  simpl. rewrite Hget.
  destruct (startsWith x BLOCK_START).
  - unfold insertText. rewrite Hget.
    replace (length pre) with (length pre + 0) at 1 by lia.
    rewrite insert_app_r. reflexivity.
  - destruct (startsWith x BLOCK_DONE); [reflexivity|].
    specialize (IH (pre ++ [x])).
    rewrite <- app_assoc, length_app in IH. simpl in IH.
    rewrite Nat.add_1_r in IH. rewrite IH.
    destruct (scan_lines r); try reflexivity.
    rewrite <- app_assoc. reflexivity.
Qed.

Lemma find_marker_whole (d : document) :
  find_marker d (length d) 0 = scan_lines d.
Proof.
  pose proof (find_marker_scan d []) as H. simpl in H. rewrite H.
  destruct (scan_lines d); reflexivity.
Qed.

Lemma scan_lines_length l l' :
  scan_lines l = Marked l' -> length l' = length l.
Proof.
  revert l'; induction l as [|x r IH]; intros l'; cbn [scan_lines]; [discriminate|].
  destruct (startsWith x BLOCK_START); [intros [= <-]; reflexivity|].
  destruct (startsWith x BLOCK_DONE); [discriminate|].
  destruct (scan_lines r); try discriminate.
  intros [= <-]. simpl. rewrite (IH _ eq_refl). reflexivity.
Qed.

(** A successful scan tags one block-start line and nothing else. *)
Lemma scan_lines_Marked l l' :
  scan_lines l = Marked l' ->
  exists pre m post,
    l = (pre ++ m :: post)%list /\
    l' = (pre ++ insert_at_column 1 "OPTIMIZED: " m :: post)%list /\
    startsWith m BLOCK_START = true /\
    Forall unmarked pre.
Proof.
  revert l'; induction l as [|x r IH]; intros l'; cbn [scan_lines]; [discriminate|].
  destruct (startsWith x BLOCK_START) eqn:Hs.
  - intros [= <-]. exists [], x, r. repeat split; auto.
  - destruct (startsWith x BLOCK_DONE) eqn:Hd; [discriminate|].
    destruct (scan_lines r) as [r'| |]; try discriminate.
    intros [= <-].
    destruct (IH _ eq_refl) as (pre & m & post & -> & -> & Hm & Hpre).
    exists (x :: pre), m, post. repeat split; auto.
    constructor; [split|]; assumption.
Qed.

(** The scan of a tagged document stops at the tag. *)
Lemma scan_lines_tagged l l' :
  scan_lines l = Marked l' -> scan_lines l' = AlreadyOptimized.
Proof.
  revert l'; induction l as [|x r IH]; intros l'; cbn [scan_lines]; [discriminate|].
  destruct (startsWith x BLOCK_START) eqn:Hs.
  - intros [= <-]. cbn [scan_lines].
    destruct (tagged_is_done _ Hs) as [-> ->]. reflexivity.
  - destruct (startsWith x BLOCK_DONE) eqn:Hd; [discriminate|].
    destruct (scan_lines r) as [r'| |]; try discriminate.
    intros [= <-]. cbn [scan_lines]. rewrite Hs, Hd, (IH _ eq_refl). reflexivity.
Qed.

(** Only comment lines decide how the scan ends. *)
Lemma scan_kind_comments l :
  scan_kind (scan_lines (comments l)) = scan_kind (scan_lines l).
Proof.
  induction l as [|x r IH]; [reflexivity|].
  unfold comments in *. simpl.
  destruct (is_comment x) eqn:Hc; simpl.
  - destruct (startsWith x BLOCK_START); [reflexivity|].
    destruct (startsWith x BLOCK_DONE); [reflexivity|].
    destruct (scan_lines (List.filter is_comment r)), (scan_lines r);
      simpl in *; congruence.
  - destruct (startsWith x BLOCK_START) eqn:Hs.
    { apply block_start_is_comment in Hs. congruence. }
    destruct (startsWith x BLOCK_DONE) eqn:Hd.
    { apply block_done_is_comment in Hd. congruence. }
    rewrite IH. destruct (scan_lines r); reflexivity.
Qed.

Lemma scan_same_comments l1 l2 :
  comments l1 = comments l2 ->
  scan_lines l2 = AlreadyOptimized -> scan_lines l1 = AlreadyOptimized.
Proof.
  intros Hc H2.
  pose proof (scan_kind_comments l1) as K1.
  pose proof (scan_kind_comments l2) as K2.
  rewrite Hc, K2, H2 in K1. destruct (scan_lines l1); simpl in K1; congruence.
Qed.

(** ** Idempotence and the comment frame *)

Lemma OptimizeGCode_with_marked delay d d' :
  find_marker d (length d) 0 = Marked d' ->
  comments (final_doc (OptimizeGCode_with delay d)) = comments d'.
Proof.
  intros H. unfold OptimizeGCode_with. rewrite H.
  pose proof (loop_comments delay (2 * length d) (initial d' (length d))) as L.
  destruct (loop delay (2 * length d) (initial d' (length d))) as [s o].
  exact L.
Qed.

Lemma OptimizeGCode_with_unmarked delay d :
  scan_kind (find_marker d (length d) 0) <> Some true ->
  OptimizeGCode_with delay d = mkResult d Completed false.
Proof.
  unfold OptimizeGCode_with.
  destruct (find_marker d (length d) 0); simpl; congruence.
Qed.

Lemma OptimizeGCode_with_rescan delay d d' :
  find_marker d (length d) 0 = Marked d' ->
  find_marker (final_doc (OptimizeGCode_with delay d))
    (length (final_doc (OptimizeGCode_with delay d))) 0 = AlreadyOptimized.
Proof.
  intros H. rewrite find_marker_whole.
  apply scan_same_comments with (l2 := d').
  - apply OptimizeGCode_with_marked. exact H.
  - rewrite find_marker_whole in H. eapply scan_lines_tagged; eauto.
Qed.

(** C1. Running the rewrite on a document it has already processed changes
    nothing: the second call returns normally with the document of the
    first call, and logs nothing.  When the first call tagged a block-start
    line, the scan of the second call stops at that tagged line; otherwise
    the first call had already left the document as it was. *)
Theorem OptimizeGCode_idempotent (d : document) :
  OptimizeGCode (final_doc (OptimizeGCode d)) =
    mkResult (final_doc (OptimizeGCode d)) Completed false /\
  match find_marker d (length d) 0 with
  | Marked _ =>
      find_marker (final_doc (OptimizeGCode d))
        (length (final_doc (OptimizeGCode d))) 0 = AlreadyOptimized
  | AlreadyOptimized | NoMarker => final_doc (OptimizeGCode d) = d
  end.
Proof.
  unfold OptimizeGCode.
  destruct (find_marker d (length d) 0) as [d'| |] eqn:Hscan.
  - pose proof (OptimizeGCode_with_rescan SPINDLE_START_DELAY d d' Hscan) as R.
    split; [|exact R].
    apply OptimizeGCode_with_unmarked. rewrite R. discriminate.
  - assert (E : OptimizeGCode_with SPINDLE_START_DELAY d = mkResult d Completed false)
      by (apply OptimizeGCode_with_unmarked; rewrite Hscan; discriminate).
    rewrite E. simpl. split; [|reflexivity].
    apply OptimizeGCode_with_unmarked. rewrite Hscan. discriminate.
  - assert (E : OptimizeGCode_with SPINDLE_START_DELAY d = mkResult d Completed false)
      by (apply OptimizeGCode_with_unmarked; rewrite Hscan; discriminate).
    rewrite E. simpl. split; [|reflexivity].
    apply OptimizeGCode_with_unmarked. rewrite Hscan. discriminate.
Qed.

(** C10. Comment lines pass through the rewrite untouched.  Either the call
    leaves the whole document as it was, or the document splits around its
    first block-start line [m] and the comment lines after the call are the
    comment lines before it, in the same order and with the same text,
    except that [m] has received the tag. *)
Theorem OptimizeGCode_comment_frame (d : document) :
  final_doc (OptimizeGCode d) = d \/
  exists pre m post,
    d = (pre ++ m :: post)%list /\
    Forall unmarked pre /\
    startsWith m BLOCK_START = true /\
    comments (final_doc (OptimizeGCode d)) =
      (comments pre ++ insert_at_column 1 "OPTIMIZED: " m :: comments post)%list.
Proof.
  unfold OptimizeGCode.
  destruct (find_marker d (length d) 0) as [d'| |] eqn:Hscan.
  - right.
    rewrite (OptimizeGCode_with_marked _ _ _ Hscan).
    rewrite find_marker_whole in Hscan.
    destruct (scan_lines_Marked _ _ Hscan) as (pre & m & post & -> & -> & Hm & Hpre).
    exists pre, m, post. repeat split; auto.
    unfold comments. rewrite List.filter_app. simpl.
    destruct (tagged_is_done _ Hm) as [Hdone _].
    apply block_done_is_comment in Hdone. rewrite Hdone. reflexivity.
  - left. rewrite OptimizeGCode_with_unmarked; [reflexivity|].
    rewrite Hscan. discriminate.
  - left. rewrite OptimizeGCode_with_unmarked; [reflexivity|].
    rewrite Hscan. discriminate.
Qed.

(** ** The scenario of the specification *)

(** C2, as stated, fails: on the four-line scenario the fourth line is not
    turned into a rapid move. *)
Lemma scenario_not_promoted :
  ~ (startsWith (getLine (final_doc (OptimizeGCode scenario)) 0) BLOCK_DONE = true /\
     getLine (final_doc (OptimizeGCode scenario)) 2 = "G1 Z-5 X10" /\
     startsWith (getLine (final_doc (OptimizeGCode scenario)) 3) "G0" = true).
Proof. vm_compute. intros (_ & _ & H). discriminate H. Qed.

(** C2, amended. On the four-line scenario the call returns normally, the
    first line receives the tag and the three motion lines are left as they
    were: the plunge of the second line has no earlier Z to compare with, so
    no feed height is ever set and nothing is promoted or inserted. *)
Theorem scenario_result :
  OptimizeGCode scenario =
  mkResult
    [ "(OPTIMIZED: When using Fusion 360 for Personal Use...)";
      "G1 Z-5 F100";
      "G1 Z-5 X10";
      "G1 Z0 X20" ]
    Completed false.
Proof. vm_compute. reflexivity. Qed.

(** ** Failures of the feed restore *)

(** C4. With no F word before the promoted line, the feed restore calls
    [toFixed] on [undefined]: the call ends in a TypeError, after it has
    tagged the first line and promoted the fourth. *)
Theorem feed_restore_raises :
  OptimizeGCode no_feed_program =
  mkResult
    [ "(OPTIMIZED: When using Fusion 360 for Personal Use...)";
      "G1 Z0";
      "G1 Z-5";
      "G0 Z0";
      "G1 Z-5" ]
    Raised false.
Proof. vm_compute. reflexivity. Qed.

(** C5. After the feed-restore line is inserted before row 4 the loop moves
    to row 5, where the line it has just handled now sits: "G1 Z0" is read
    twice, and on the second reading, with its own Z as the previous Z, it
    is promoted to a rapid move although it descends. *)
Theorem descent_line_read_twice :
  OptimizeGCode_visits descent_program =
    [ (0, "(OPTIMIZED: When using Fusion 360 for Personal Use...)");
      (1, "G1 Z5 F100");
      (2, "G1 Z-5");
      (3, "G1 Z5");
      (4, "G1 Z0");
      (5, "G1 Z0") ] /\
  final_doc (OptimizeGCode descent_program) =
    [ "(OPTIMIZED: When using Fusion 360 for Personal Use...)";
      "G1 Z5 F100";
      "G1 Z-5";
      "G0 Z5";
      "G1 F100";
      "G0 Z0" ].
Proof. vm_compute. split; reflexivity. Qed.

(** ** The dwell *)

(** C6. The test for the spindle start is a substring test: a line that
    holds only M30 gets the dwell as well. *)
Theorem dwell_after_program_end :
  OptimizeGCode program_end =
  mkResult
    [ "(OPTIMIZED: When using Fusion 360 for Personal Use...)";
      "M30";
      "G4 P3" ]
    Completed false.
Proof. vm_compute. reflexivity. Qed.

(** ** GetToolInfo *)

Lemma GetToolInfo_from_app (post pre : document) :
  GetToolInfo_from (pre ++ post) (length post) (length pre) =
  option_map tool_of_line (first_tool_line post).
Proof.
  revert pre; induction post as [|x r IH]; intros pre; [reflexivity|].
  assert (Hget : getLine (pre ++ x :: r) (length pre) = x).
  { apply getLine_drop with (r := r). rewrite drop_app_length. reflexivity. }
  cbn [GetToolInfo_from first_tool_line length]. rewrite Hget.
  destruct (startsWith x "(T"); [reflexivity|].
  specialize (IH (pre ++ [x])).
  rewrite <- app_assoc, length_app in IH. simpl in IH.
  rewrite Nat.add_1_r in IH. exact IH.
Qed.

Lemma GetToolInfo_first (d : document) :
  GetToolInfo d = option_map tool_of_line (first_tool_line d).
Proof. exact (GetToolInfo_from_app d []). Qed.

Lemma first_tool_line_none (d : document) :
  Forall (fun l => startsWith l "(T" = false) d -> first_tool_line d = None.
Proof.
  induction 1 as [|x r Hx _ IH]; [reflexivity|].
  cbn [first_tool_line]. rewrite Hx. exact IH.
Qed.

Lemma first_tool_line_app (pre post : document) l :
  Forall (fun l => startsWith l "(T" = false) pre ->
  startsWith l "(T" = true ->
  first_tool_line (pre ++ l :: post) = Some l.
Proof.
  induction 1 as [|x r Hx _ IH]; intros Hl; cbn [first_tool_line app].
  - rewrite Hl. reflexivity.
  - rewrite Hx. apply IH. exact Hl.
Qed.

Lemma first_tool_line_Some (d : document) l :
  first_tool_line d = Some l ->
  exists pre post,
    d = pre ++ l :: post /\
    Forall (fun l => startsWith l "(T" = false) pre /\
    startsWith l "(T" = true.
Proof.
  induction d as [|x r IH]; cbn [first_tool_line]; [discriminate|].
  destruct (startsWith x "(T") eqn:Hx.
  - intros [= ->]. exists [], r. repeat split; auto.
  - intros H. destruct (IH H) as (pre & post & -> & Hpre & Hl).
    exists (x :: pre), post. repeat split; auto.
Qed.

(** C3, as stated, fails: the name extracted from the sample tool comment is
    not "Router". *)
Lemma tool_name_not_Router :
  option_map toolName (GetToolInfo ["(T1 Router ZMIN=-10.5)"]) <> Some "Router".
Proof. vm_compute. discriminate. Qed.

(** C3, amended. When the first line that begins with "(T" is
    "(T1 Router ZMIN=-10.5)", the extractor returns the name "(Router10.5)"
    and the minimum Z -10.5: the opening parenthesis stays, the "T1 " token
    is removed, and the second replacement removes the text from " ZMIN"
    through the last "-" of the line, which here is the sign of the number.
    A document with no line beginning with "(T" gives no tool. *)
Theorem GetToolInfo_sample (pre post : document) :
  Forall (fun l => startsWith l "(T" = false) pre ->
  GetToolInfo (pre ++ "(T1 Router ZMIN=-10.5)" :: post) =
    Some {| toolName := "(Router10.5)"; minZ := Some (Val (-105 # 10)) |} /\
  GetToolInfo pre = None.
Proof.
  intros Hpre. rewrite !GetToolInfo_first. split.
  - rewrite (first_tool_line_app pre post "(T1 Router ZMIN=-10.5)" Hpre eq_refl).
    reflexivity.
  - rewrite (first_tool_line_none pre Hpre). reflexivity.
Qed.

Lemma GetToolInfo_sample_witness :
  GetToolInfo ["G21"; "(Operation 1)"; "(T1 Router ZMIN=-10.5)"; "(T2 Drill ZMIN=-3)"] =
    Some {| toolName := "(Router10.5)"; minZ := Some (Val (-105 # 10)) |} /\
  GetToolInfo ["G21"; "(Operation 1)"] = None.
Proof.
  apply (GetToolInfo_sample ["G21"; "(Operation 1)"] ["(T2 Drill ZMIN=-3)"]).
  repeat constructor.
Defined.

(** ** Line-start markers *)

(** C8, as stated, fails: a tool comment with spaces in front of it is not
    found, and a parenthesised line with spaces in front of it is treated as
    a command (here it gets the dwell for its "M3"). *)
Lemma indented_markers_missed :
  GetToolInfo ["  (T1 Router ZMIN=-10.5)"] = None /\
  final_doc (OptimizeGCode
               ["(When using Fusion 360 for Personal Use...)"; "  (M3 starts the spindle)"]) =
    [ "(OPTIMIZED: When using Fusion 360 for Personal Use...)";
      "  (M3 starts the spindle)";
      "G4 P3" ].
Proof. vm_compute. split; reflexivity. Qed.

Lemma body_on_comment delay s :
  is_comment (getLine (doc s) (lineIdx s)) = true ->
  exists fz,
    body delay s =
    Normal (mkState (doc s) (lineIdx s) (lineCount s)
              (curZ s) (curG s) (curF s) fz (restoreF s) (optimized s)).
Proof.
  intros H. unfold body. unfold is_comment in H. rewrite H. eauto.
Qed.

(** C8, amended. Markers are recognised at the very first character, with
    no trimming.  A line is a comment exactly when its first character is
    "(", and on such a line the loop body changes neither the document nor
    the tracked Z, G and F.  The extractor returns the data of a line [l]
    exactly when [l] begins with "(T" in its first two characters and no
    earlier line does. *)
Theorem markers_at_first_character :
  (forall line, is_comment line = true <-> exists rest, line = String "(" rest) /\
  (forall delay s,
      is_comment (getLine (doc s) (lineIdx s)) = true ->
      exists s',
        body delay s = Normal s' /\ doc s' = doc s /\
        curZ s' = curZ s /\ curG s' = curG s /\ curF s' = curF s) /\
  (forall d t,
      GetToolInfo d = Some t <->
      exists pre l post,
        d = pre ++ l :: post /\
        Forall (fun x => startsWith x "(T" = false) pre /\
        (exists rest, l = String "(" (String "T" rest)) /\
        t = tool_of_line l).
Proof.
  split; [|split].
  - intros line. unfold is_comment. rewrite startsWith_app. reflexivity.
  - intros delay s H. destruct (body_on_comment delay s H) as [fz ->].
    eexists. split; [reflexivity|]. simpl. auto.
  - intros d t. rewrite GetToolInfo_first. split.
    + destruct (first_tool_line d) as [l|] eqn:E; [|discriminate].
      intros [= <-]. apply first_tool_line_Some in E as (pre & post & -> & Hpre & Hl).
      exists pre, l, post. repeat split; auto.
      apply startsWith_app in Hl. exact Hl.
    + intros (pre & l & post & -> & Hpre & Hl & ->).
      rewrite (first_tool_line_app pre post l Hpre); [reflexivity|].
      apply startsWith_app. exact Hl.
Qed.

Lemma markers_at_first_character_witness :
  is_comment "(T1 Router ZMIN=-10.5)" = true /\
  (exists s',
      body 3 (initial ["(Z5 in a comment)"; "G1 Z-1"] 2) = Normal s' /\
      doc s' = ["(Z5 in a comment)"; "G1 Z-1"] /\
      curZ s' = None /\ curG s' = None /\ curF s' = None) /\
  GetToolInfo ["  (T9 indented)"; "(T1 Router ZMIN=-10.5)"] =
    Some (tool_of_line "(T1 Router ZMIN=-10.5)").
Proof.
  destruct markers_at_first_character as (Hc & Hb & Ht). split; [|split].
  - apply Hc. eexists. reflexivity.
  - apply (Hb 3%N (initial ["(Z5 in a comment)"; "G1 Z-1"] 2)). reflexivity.
  - apply Ht. exists ["  (T9 indented)"], "(T1 Router ZMIN=-10.5)", [].
    repeat split.
    + repeat constructor.
    + eexists. reflexivity.
Defined.

(** ** A spindle line when the delay is zero *)





(** ** The tracked values *)

Lemma drop_insertFullLines row text (d : document) :
  row <= length d ->
  drop (S row) (insertFullLines row text d) = drop row d.
Proof.
  intros H. unfold insertFullLines.
  replace (S row) with (row + 1) by lia.
  rewrite (drop_app_add' (take row d) (text :: drop row d) row 1);
    [reflexivity|].
  rewrite length_take. lia.
Qed.

Lemma sticky_snoc {A} (f : string -> option A) delay (l : document) x :
  sticky f delay (l ++ [x]) =
  if tracked delay x then overwrite (f x) (sticky f delay l) else sticky f delay l.
Proof. unfold sticky. rewrite fold_left_app. reflexivity. Qed.

Lemma overwrite_twice {A} (v c : option A) :
  overwrite v (overwrite v c) = overwrite v c.
Proof. destruct v; reflexivity. Qed.

(** What one pass through the body does to the rows ahead and to the
    tracked values. *)
Lemma body_effect delay s s' :
  lineCount s = length (doc s) ->
  lineIdx s < lineCount s ->
  body delay s = Normal s' ->
  lineCount s' = length (doc s') /\
  (curZ s' = if tracked delay (getLine (doc s) (lineIdx s))
             then overwrite (line_Z (getLine (doc s) (lineIdx s))) (curZ s)
             else curZ s) /\
  (curG s' = if tracked delay (getLine (doc s) (lineIdx s))
             then overwrite (line_G (getLine (doc s) (lineIdx s))) (curG s)
             else curG s) /\
  (curF s' = if tracked delay (getLine (doc s) (lineIdx s))
             then overwrite (line_F (getLine (doc s) (lineIdx s))) (curF s)
             else curF s) /\
  (drop (S (lineIdx s')) (doc s') = drop (S (lineIdx s)) (doc s) \/
   (restoreF s = true /\ restoreF s' = false /\
    drop (S (lineIdx s')) (doc s') = drop (lineIdx s) (doc s))).
Proof.
  intros Hcount Hlt Hbody. unfold tracked, is_comment.
  body_cases_in Hbody; try discriminate Hbody; injection Hbody as <-;
    cbn [lineCount doc curZ curG curF lineIdx restoreF];
    repeat match goal with
           | H : ?b = _ |- context [?b] => rewrite H
           end;
    cbn [negb andb];
    (split; [unfold replaceLine;
             rewrite ?length_insertFullLines, ?length_insert; lia|]);
    (split; [reflexivity|]); (split; [reflexivity|]); (split; [reflexivity|]).
  all: first
    [ left; reflexivity
    | left; rewrite Nat.add_1_r; apply drop_insertFullLines; lia
    | left; unfold replaceLine; apply drop_insert_lt; lia
    | right; split; [reflexivity|]; split; [reflexivity|];
      apply drop_insertFullLines; lia ].
Qed.

Lemma agrees_next delay d0 k s s' x :
  take (S k) d0 = take k d0 ++ [x] ->
  getLine (doc s) (lineIdx s) = x ->
  agrees delay d0 k s \/ agrees delay d0 (S k) s ->
  (curZ s' = if tracked delay x then overwrite (line_Z x) (curZ s) else curZ s) ->
  (curG s' = if tracked delay x then overwrite (line_G x) (curG s) else curG s) ->
  (curF s' = if tracked delay x then overwrite (line_F x) (curF s) else curF s) ->
  agrees delay d0 (S k) s'.
Proof.
  intros Htake Hx Hag HZ HG HF. unfold agrees in *.
  rewrite Htake, !sticky_snoc in *.
  destruct Hag as [(EZ & EG & EF) | (EZ & EG & EF)];
    rewrite HZ, HG, HF, EZ, EG, EF;
    destruct (tracked delay x); rewrite ?overwrite_twice; auto.
Qed.

Lemma synced_step delay d0 s s' :
  synced delay d0 s ->
  lineIdx s < lineCount s ->
  body delay s = Normal s' ->
  synced delay d0 (advance s').
Proof.
  intros (Hcount & k & Hdrop & Hag) Hlt Hbody.
  destruct (body_effect delay s s' Hcount Hlt Hbody)
    as (Hcount' & HZ & HG & HF & Hrows).
  destruct (drop_in_range (doc s) (lineIdx s)) as [r Hr]; [lia|].
  set (x := getLine (doc s) (lineIdx s)) in *.
  assert (Hk : d0 !! k = Some x).
  { pose proof (lookup_drop d0 k 0) as L.
    rewrite <- Hdrop, Hr, Nat.add_0_r in L. symmetry. exact L. }
  assert (Hi : doc s !! lineIdx s = Some x).
  { pose proof (lookup_drop (doc s) (lineIdx s) 0) as L.
    rewrite Hr, Nat.add_0_r in L. symmetry. exact L. }
  assert (Hnext : drop (S (lineIdx s)) (doc s) = drop (S k) d0).
  { pose proof (drop_S _ _ _ Hk) as E1. pose proof (drop_S _ _ _ Hi) as E2.
    rewrite <- Hdrop, E2 in E1. congruence. }
  assert (Hag' : agrees delay d0 (S k) (advance s')).
  { apply (agrees_next delay d0 k s (advance s') x); auto.
    - apply take_S_r. exact Hk.
    - destruct Hag as [H | [_ H]]; auto. }
  split; [exact Hcount'|].
  destruct Hrows as [Hrows | (Hr1 & Hr2 & Hrows)].
  - exists (S k). split; [|left; exact Hag'].
    cbn [advance lineIdx doc]. rewrite Hrows. exact Hnext.
  - exists k. split.
    + cbn [advance lineIdx doc]. rewrite Hrows. exact Hdrop.
    + right. split; [exact Hr2 | exact Hag'].
Qed.

(** The invariant holds whenever control is at the head of the loop. *)
Lemma loop_synced delay d0 fuel s s1 o :
  synced delay d0 s ->
  loop delay fuel s = (s1, o) ->
  o <> Raised ->
  synced delay d0 s1.
Proof.
  revert s; induction fuel as [|fuel IH]; intros s Hs; cbn [loop].
  - destruct (lineIdx s <? lineCount s); intros [= <- <-] _; exact Hs.
  - destruct (Nat.ltb_spec (lineIdx s) (lineCount s)) as [Hlt|Hge].
    + destruct (body delay s) as [s'|s'] eqn:Hbody.
      * apply IH. eapply synced_step; eauto.
      * intros [= <- <-] Ho. contradiction.
    + intros [= <- <-] _. exact Hs.
Qed.

Lemma loop_completed delay fuel s s1 :
  loop delay fuel s = (s1, Completed) -> lineCount s1 <= lineIdx s1.
Proof.
  revert s; induction fuel as [|fuel IH]; intros s; cbn [loop].
  - destruct (Nat.ltb_spec (lineIdx s) (lineCount s)); [discriminate|].
    intros [= <-]. assumption.
  - destruct (Nat.ltb_spec (lineIdx s) (lineCount s)) as [Hlt|Hge].
    + destruct (body delay s) as [s'|s']; [apply IH | discriminate].
    + intros [= <-]. assumption.
Qed.

Lemma initial_synced delay (d : document) : synced delay d (initial d (length d)).
Proof.
  split; [reflexivity|]. exists 0. split; [reflexivity|].
  left. repeat split.
Qed.

(** C7, as stated, fails: after "G1 Z5" and "G1 Z." the tracked Z is NaN,
    not the 5 that would remain if a malformed numeral counted as absent. *)
Lemma malformed_Z_is_tracked :
  curZ (fst (loop SPINDLE_START_DELAY 4 (initial ["G1 Z5"; "G1 Z."] 2))) = Some NaN /\
  sticky (fun l => well_formed (line_Z l)) SPINDLE_START_DELAY ["G1 Z5"; "G1 Z."] =
    Some (Val (5 # 1)) /\
  curZ (fst (loop SPINDLE_START_DELAY 4 (initial ["G1 Z5"; "G1 Z."] 2))) <>
    sticky (fun l => well_formed (line_Z l)) SPINDLE_START_DELAY ["G1 Z5"; "G1 Z."].
Proof. vm_compute. repeat split; discriminate. Qed.

(** C7, amended. When the loop has run over a document, the tracked Z, G and
    F are the last values that the three patterns found on the lines the
    body reads them from (the command lines, without the spindle lines when
    the delay is positive), or are undefined if no such line had a match; a
    line without a match keeps the value.  A match that is not a
    well-formed numeral is not absent: its value is NaN and it replaces the
    tracked value like any other. *)
Theorem sticky_state (delay : N) (d : document) (s : state) :
  loop delay (2 * length d) (initial d (length d)) = (s, Completed) ->
  curZ s = sticky line_Z delay d /\
  curG s = sticky line_G delay d /\
  curF s = sticky line_F delay d.
Proof.
  intros Hloop.
  pose proof (loop_completed _ _ _ _ Hloop) as Hend.
  destruct (loop_synced delay d _ _ _ _ (initial_synced delay d) Hloop)
    as (Hcount & k & Hdrop & Hag); [discriminate|].
  assert (Hk : length d <= k).
  { apply drop_nil_inv. rewrite <- Hdrop. apply drop_ge. lia. }
  unfold agrees in Hag.
  rewrite !(take_ge d) in Hag by lia.
  destruct Hag as [H | [_ H]]; exact H.
Qed.

Lemma sticky_state_witness :
  curZ (fst (loop 3 6 (initial ["G1 Z5 F100"; "(Z9)"; "X1 Z."] 3))) = Some NaN /\
  curG (fst (loop 3 6 (initial ["G1 Z5 F100"; "(Z9)"; "X1 Z."] 3))) = Some 1%N /\
  curF (fst (loop 3 6 (initial ["G1 Z5 F100"; "(Z9)"; "X1 Z."] 3))) = Some (Val (100 # 1)).
Proof.
  exact (sticky_state 3 ["G1 Z5 F100"; "(Z9)"; "X1 Z."] _ eq_refl).
Defined.

(** ** The shape of the rewritten program *)

Lemma take_insertFullLines row text (d : document) :
  row <= length d ->
  take (S row) (insertFullLines row text d) = take row d ++ [text].
Proof.
  intros H. unfold insertFullLines.
  replace (S row) with (length (take row d) + 1)
    by (rewrite length_take; lia).
  rewrite take_app_add. reflexivity.
Qed.

Lemma take_replaceLine row text (d : document) :
  row < length d ->
  take (S row) (replaceLine row text d) = take row d ++ [text].
Proof.
  intros H. unfold replaceLine.
  rewrite (take_S_r _ _ text) by (apply list_lookup_insert_eq; exact H).
  rewrite take_insert_ge by lia. reflexivity.
Qed.

Lemma getLine_lookup (d : document) i x : d !! i = Some x -> getLine d i = x.
Proof. intros H. unfold getLine. rewrite H. reflexivity. Qed.

Lemma tracked_command delay x :
  is_comment x = false ->
  (0 <? delay)%N && contains x "M3" = false ->
  tracked delay x = true.
Proof. intros H1 H2. unfold tracked. rewrite H1, H2. reflexivity. Qed.

(** What one pass through the body writes.  Either the row is done, and the
    rows up to the next one to read are the old ones followed by the lines
    left for [x]; or a feed-restore line went in front of [x], which will be
    read again. *)
Lemma body_emits delay s s' x :
  lineCount s = length (doc s) ->
  doc s !! lineIdx s = Some x ->
  body delay s = Normal s' ->
  (exists out,
      take (S (lineIdx s')) (doc s') = take (lineIdx s) (doc s) ++ out /\
      drop (S (lineIdx s')) (doc s') = drop (S (lineIdx s)) (doc s) /\
      ((is_comment x = true /\ out = [x]) \/
       (is_comment x = false /\ (0 <? delay)%N && contains x "M3" = true /\
        out = [x; dwell_line delay]) \/
       (tracked delay x = true /\ (out = [x] \/ out = [promoted x])))) \/
  (restoreF s = true /\ restoreF s' = false /\ tracked delay x = true /\
   exists f,
     take (S (lineIdx s')) (doc s') = take (lineIdx s) (doc s) ++ [restore_line f] /\
     drop (S (lineIdx s')) (doc s') = drop (lineIdx s) (doc s)).
Proof.
  intros Hcount Hx Hbody.
  pose proof (getLine_lookup _ _ _ Hx) as Hg.
  assert (Hlt : lineIdx s < length (doc s)) by (eapply lookup_lt_Some; eauto).
  pose proof (take_S_r _ _ _ Hx) as Hkeep.
  unfold body in Hbody. rewrite Hg in Hbody.
  destruct (startsWith x "(") eqn:Hc.
  { injection Hbody as <-. left. exists [x]. cbn [lineIdx doc].
    split; [exact Hkeep|]. split; [reflexivity|]. left. split; [exact Hc | reflexivity]. }
  destruct ((0 <? delay)%N && contains x "M3") eqn:Hm.
  { injection Hbody as <-. left. exists [x; dwell_line delay].
    cbn [lineIdx doc]. rewrite Nat.add_1_r. split; [|split].
    - rewrite take_insertFullLines by lia.
      rewrite Hkeep, <- app_assoc. reflexivity.
    - apply drop_insertFullLines. lia.
    - right. left. split; [exact Hc|]. split; [first [exact Hm | reflexivity] | reflexivity]. }
  pose proof (tracked_command delay x Hc Hm) as Ht.
  destruct (first_plunge _ _ _ _).
  { injection Hbody as <-. left. exists [x]. cbn [lineIdx doc].
    split; [exact Hkeep|]. split; [reflexivity|]. right. right. auto. }
  destruct (at_or_above _ _ _ _).
  { injection Hbody as <-. left. exists [promoted x].
    cbn [lineIdx doc]. split; [|split].
    - apply take_replaceLine. exact Hlt.
    - unfold replaceLine. apply drop_insert_lt. lia.
    - right. right. auto. }
  destruct (restoreF s) eqn:Hr.
  - destruct (overwrite (line_F x) (curF s)) as [f|]; [|discriminate].
    injection Hbody as <-. right. repeat split; auto.
    exists f. cbn [lineIdx doc]. split.
    + apply take_insertFullLines. lia.
    + apply drop_insertFullLines. lia.
  - injection Hbody as <-. left. exists [x]. cbn [lineIdx doc].
    split; [exact Hkeep|]. split; [reflexivity|]. right. right. auto.
Qed.














(** ** How often the loop body runs *)

Lemma visits_within_budget delay fuel s :
  length (visits delay fuel s) <= budget s.
Proof.
  revert s; induction fuel as [|fuel IH]; intros s; cbn [visits].
  - destruct (lineIdx s <? lineCount s); simpl; lia.
  - destruct (Nat.ltb_spec (lineIdx s) (lineCount s)) as [Hlt|Hge];
      [|simpl; lia].
    cbn [length].
    destruct (body delay s) as [s'|s'] eqn:Hbody.
    + pose proof (body_budget _ _ _ Hlt Hbody). specialize (IH (advance s')). lia.
    + unfold budget. simpl. lia.
Qed.

(** ** When the feed restore fails *)

Lemma body_raises delay s s' :
  body delay s = TypeError s' ->
  tracked delay (getLine (doc s) (lineIdx s)) = true /\
  restoreF s = true /\
  overwrite (line_F (getLine (doc s) (lineIdx s))) (curF s) = None.
Proof.
  intros Hbody. unfold tracked, is_comment.
  body_cases_in Hbody; try discriminate Hbody.
  repeat match goal with
         | H : ?b = _ |- context [?b] => rewrite H
         end.
  all: cbn [negb andb]; auto.
Qed.

Lemma loop_raised delay d0 fuel s s1 :
  synced delay d0 s ->
  loop delay fuel s = (s1, Raised) ->
  exists k x,
    d0 !! k = Some x /\ tracked delay x = true /\
    sticky line_F delay (take (S k) d0) = None.
Proof.
  revert s; induction fuel as [|fuel IH]; intros s Hs; cbn [loop].
  - destruct (lineIdx s <? lineCount s); discriminate.
  - destruct (Nat.ltb_spec (lineIdx s) (lineCount s)) as [Hlt|Hge];
      [|discriminate].
    destruct (body delay s) as [s'|s'] eqn:Hbody.
    + apply IH. eapply synced_step; eauto.
    + intros _. destruct (body_raises _ _ _ Hbody) as (Ht & Hr & HF).
      destruct Hs as (Hcount & k & Hdrop & Hag).
      destruct (drop_in_range (doc s) (lineIdx s)) as [r Hrow]; [lia|].
      set (x := getLine (doc s) (lineIdx s)) in *.
      assert (Hk : d0 !! k = Some x).
      { pose proof (lookup_drop d0 k 0) as L.
        rewrite <- Hdrop, Hrow, Nat.add_0_r in L. symmetry. exact L. }
      exists k, x. split; [exact Hk|]. split; [exact Ht|].
      destruct Hag as [(_ & _ & EF) | (Hr' & _)]; [|congruence].
      rewrite (take_S_r _ _ _ Hk), sticky_snoc, Ht, <- EF. exact HF.
Qed.

Lemma sticky_defined_app {A} (f : string -> option A) delay (l l' : document) :
  is_defined (sticky f delay l) = true ->
  is_defined (sticky f delay (l ++ l')) = true.
Proof.
  revert l. induction l' as [|y l' IH] using rev_ind; intros l H.
  - rewrite app_nil_r. exact H.
  - rewrite app_assoc, sticky_snoc.
    specialize (IH l H).
    destruct (tracked delay y); [|exact IH].
    destruct (f y); [reflexivity | exact IH].
Qed.

Lemma first_command_lookup delay (d : document) x :
  first_command delay d = Some x ->
  exists j, d !! j = Some x /\ tracked delay x = true /\
            forall k y, d !! k = Some y -> tracked delay y = true -> j <= k.
Proof.
  unfold first_command. induction d as [|y d IH]; simpl; [discriminate|].
  destruct (tracked delay y) eqn:Hy.
  - intros [= ->]. exists 0. repeat split; auto. intros; lia.
  - intros H. destruct (IH H) as (j & Hj & Ht & Hmin).
    exists (S j). repeat split; auto.
    intros [|k] z Hz Htz; simpl in Hz.
    + congruence.
    + specialize (Hmin k z Hz Htz). lia.
Qed.

Lemma loop_completes_with_early_feed (delay : N) (d : document) (x : string) :
  first_command delay d = Some x ->
  is_defined (line_F x) = true ->
  snd (loop delay (2 * length d) (initial d (length d))) = Completed.
Proof.
  intros Hfirst HF.
  destruct (loop delay (2 * length d) (initial d (length d))) as [s o] eqn:Hloop.
  cbn [snd]. destruct o; [reflexivity| |].
  - exfalso.
    destruct (loop_raised delay d _ _ _ (initial_synced delay d) Hloop)
      as (k & y & Hk & Hy & Hnone).
    destruct (first_command_lookup _ _ _ Hfirst) as (j & Hj & Ht & Hmin).
    specialize (Hmin k y Hk Hy).
    assert (Hdef : is_defined (sticky line_F delay (take (S j) d)) = true).
    { rewrite (take_S_r _ _ _ Hj), sticky_snoc, Ht.
      destruct (line_F x); [reflexivity | discriminate]. }
    assert (Hsplit : take (S k) d = take (S j) d ++ drop (S j) (take (S k) d)).
    { rewrite <- (take_drop (S j) (take (S k) d)) at 1.
      rewrite take_take. f_equal. f_equal. lia. }
    rewrite Hsplit in Hnone.
    pose proof (sticky_defined_app line_F delay _ (drop (S j) (take (S k) d)) Hdef) as H.
    rewrite Hnone in H. discriminate.
  - exfalso. pose proof (loop_never_exhausts delay d (length d)) as H.
    rewrite Hloop in H. apply H. reflexivity.
Qed.

Lemma comment_not_tracked delay x : is_comment x = true -> tracked delay x = false.
Proof. intros H. unfold tracked. rewrite H. reflexivity. Qed.

Lemma first_command_tagged delay l l' :
  scan_lines l = Marked l' -> first_command delay l' = first_command delay l.
Proof.
  unfold first_command.
  revert l'; induction l as [|x r IH]; intros l'; cbn [scan_lines]; [discriminate|].
  destruct (startsWith x BLOCK_START) eqn:Hs.
  - intros [= <-]. cbn [List.find].
    destruct (tagged_is_done _ Hs) as [Hdone _].
    rewrite (comment_not_tracked delay _ (block_done_is_comment _ Hdone)).
    rewrite (comment_not_tracked delay _ (block_start_is_comment _ Hs)).
    reflexivity.
  - destruct (startsWith x BLOCK_DONE); [discriminate|].
    destruct (scan_lines r) as [r'| |]; try discriminate.
    intros [= <-]. cbn [List.find]. rewrite (IH _ eq_refl). reflexivity.
Qed.

(** X5. The TypeError of the feed restore needs a command line that is
    reached before any F word: when the first line of the program that the
    loop reads words from (the first line that is neither a comment nor,
    with a positive delay, a line containing "M3") carries an F word, the
    call runs to its end. *)
Theorem OptimizeGCode_completes_with_early_feed (delay : N) (d : document) (x : string) :
  first_command delay d = Some x ->
  is_defined (line_F x) = true ->
  status (OptimizeGCode_with delay d) = Completed.
Proof.
  intros Hfirst HF. unfold OptimizeGCode_with.
  destruct (find_marker d (length d) 0) as [d'| |] eqn:Hscan; try reflexivity.
  rewrite find_marker_whole in Hscan.
  rewrite <- (first_command_tagged delay _ _ Hscan) in Hfirst.
  rewrite <- (scan_lines_length _ _ Hscan).
  pose proof (loop_completes_with_early_feed delay d' x Hfirst HF) as H.
  destruct (loop delay (2 * length d') (initial d' (length d'))) as [s o].
  exact H.
Qed.

Lemma OptimizeGCode_completes_with_early_feed_witness :
  status (OptimizeGCode_with 3
            ["(When using Fusion 360 for Personal Use)"; "M3 S12000";
             "G1 Z0 F300"; "G1 Z-5"; "G1 Z0"; "G1 Z-5"]) = Completed.
Proof.
  apply (OptimizeGCode_completes_with_early_feed 3 _ "G1 Z0 F300"); reflexivity.
Defined.

(** ** The tool comment and the rewrite *)

Lemma first_tool_line_comments l :
  first_tool_line (comments l) = first_tool_line l.
Proof.
  unfold comments. induction l as [|x r IH]; [reflexivity|].
  cbn [List.filter first_tool_line].
  destruct (is_comment x) eqn:Hc.
  - cbn [first_tool_line]. rewrite IH. reflexivity.
  - destruct (startsWith x "(T") eqn:Ht; [|exact IH].
    apply startsWith_first in Ht. unfold is_comment in Hc. congruence.
Qed.

Lemma block_start_not_tool m :
  startsWith m BLOCK_START = true ->
  startsWith m "(T" = false /\
  startsWith (insert_at_column 1 "OPTIMIZED: " m) "(T" = false.
Proof.
  intros H. apply startsWith_app in H as [r ->]. split; reflexivity.
Qed.

Lemma first_tool_line_tagged l l' :
  scan_lines l = Marked l' -> first_tool_line l' = first_tool_line l.
Proof.
  revert l'; induction l as [|x r IH]; intros l'; cbn [scan_lines]; [discriminate|].
  destruct (startsWith x BLOCK_START) eqn:Hs.
  - intros [= <-]. cbn [first_tool_line].
    destruct (block_start_not_tool _ Hs) as [-> ->]. reflexivity.
  - destruct (startsWith x BLOCK_DONE); [discriminate|].
    destruct (scan_lines r) as [r'| |]; try discriminate.
    intros [= <-]. cbn [first_tool_line]. rewrite (IH _ eq_refl). reflexivity.
Qed.

Lemma tool_info_stable (delay : N) (d : document) :
  GetToolInfo (final_doc (OptimizeGCode_with delay d)) = GetToolInfo d.
Proof.
  rewrite !GetToolInfo_first. f_equal.
  destruct (find_marker d (length d) 0) as [d'| |] eqn:Hscan.
  - rewrite <- first_tool_line_comments.
    rewrite (OptimizeGCode_with_marked _ _ _ Hscan).
    rewrite first_tool_line_comments.
    rewrite find_marker_whole in Hscan.
    apply first_tool_line_tagged. exact Hscan.
  - rewrite OptimizeGCode_with_unmarked; [reflexivity|]. rewrite Hscan. discriminate.
  - rewrite OptimizeGCode_with_unmarked; [reflexivity|]. rewrite Hscan. discriminate.
Qed.

(** X6. The rewrite never changes what the extractor finds: the tool
    comment is a comment line, the loop leaves comment lines alone, and the
    one comment line that is tagged does not begin with "(T".  This holds
    also for a call that ends in the TypeError. *)
Theorem GetToolInfo_after_OptimizeGCode (delay : N) (d : document) :
  GetToolInfo (final_doc (OptimizeGCode_with delay d)) = GetToolInfo d.
Proof. apply tool_info_stable. Qed.

(** ** The words of a promoted line *)


Lemma search_past {A} (m : string -> option A) f t :
  (forall c u, f c = true -> m (String c u) = None) ->
  search m t = search m (snd (span f t)).
Proof.
  intros Hm. induction t as [|c t IH]; [reflexivity|].
  cbn [span]. destruct (f c) eqn:Hc; [|reflexivity].
  cbn [search]. rewrite (Hm c t Hc).
  destruct (span f t) as [a b]. exact IH.
Qed.

Lemma digit_is_no_word c u :
  is_digit c = true -> Re.Z_word (String c u) = None /\ Re.F_word (String c u) = None.
Proof.
  destruct c as [b0 b1 b2 b3 b4 b5 b6 b7].
  destruct b0, b1, b2, b3, b4, b5, b6, b7; intros H;
    first [discriminate H | split; reflexivity].
Qed.




(** ** The feed-restore line read back *)

Lemma digits_val_acc d acc :
  digits_val (Npos acc) (NilEmpty.string_of_uint d) = Npos (Pos.of_uint_acc d acc).
Proof.
  revert acc; induction d; intros acc;
    cbn [NilEmpty.string_of_uint digits_val Pos.of_uint_acc];
    try reflexivity;
    rewrite <- IHd; f_equal;
    match goal with
    | |- context [digit_val ?c] =>
        let v := eval vm_compute in (digit_val c) in change (digit_val c) with v
    end; lia.
Qed.

Lemma digits_val_uint d :
  digits_val 0 (NilEmpty.string_of_uint d) = N.of_uint d.
Proof.
  unfold N.of_uint.
  induction d; cbn [NilEmpty.string_of_uint digits_val Pos.of_uint];
    try reflexivity;
    first [ exact IHd | apply digits_val_acc ].
Qed.

Lemma NumberOfDigits_string_of_N n : NumberOfDigits (string_of_N n) = n.
Proof.
  unfold NumberOfDigits, string_of_N.
  rewrite digits_val_uint. apply DecimalN.Unsigned.of_to.
Qed.

Lemma span_digits_uint d :
  span is_digit (NilEmpty.string_of_uint d) = (NilEmpty.string_of_uint d, EmptyString) /\
  span is_numch (NilEmpty.string_of_uint d) = (NilEmpty.string_of_uint d, EmptyString).
Proof.
  induction d; cbn [NilEmpty.string_of_uint span]; [split; reflexivity|..];
    destruct IHd as [-> ->]; split; reflexivity.
Qed.

Lemma string_of_N_first n :
  exists c rest, string_of_N n = String c rest /\ is_digit c = true.
Proof.
  unfold string_of_N. destruct n as [|p].
  - exists "0"%char, EmptyString. split; reflexivity.
  - cbn [N.to_uint]. pose proof (DecimalPos.Unsigned.to_uint_nonnil p) as Hn.
    destruct (Pos.to_uint p); [contradiction|..];
      eexists _, _; split; reflexivity.
Qed.

Lemma Number_string_of_N n : Number (string_of_N n) = Val (Z.of_N n # 1).
Proof.
  destruct (string_of_N_first n) as (c & rest & Hs & Hc).
  assert (Hu : unsigned_decimal (string_of_N n) = Some (Z.of_N n # 1)).
  { unfold unsigned_decimal.
    pose proof (span_digits_uint (N.to_uint n)) as [Hsp _].
    fold (string_of_N n) in Hsp. rewrite Hsp.
    pose proof (NumberOfDigits_string_of_N n) as Hv. unfold NumberOfDigits in Hv.
    rewrite Hv, Hs. reflexivity. }
  unfold Number. rewrite Hs in *.
  destruct (Ascii.eqb_spec c "-") as [->|Hne]; [discriminate Hc|].
  rewrite Hu.
  destruct c as [b0 b1 b2 b3 b4 b5 b6 b7].
  destruct b0, b1, b2, b3, b4, b5, b6, b7;
    first [reflexivity | exfalso; apply Hne; reflexivity].
Qed.

Lemma line_F_of_digits n :
  line_F ("G1 F" ++ string_of_N n) = Some (Val (Z.of_N n # 1)) /\
  line_G ("G1 F" ++ string_of_N n) = Some 1%N /\
  line_Z ("G1 F" ++ string_of_N n) = None.
Proof.
  destruct (string_of_N_first n) as (c & rest & Hs & Hc).
  pose proof (span_digits_uint (N.to_uint n)) as [_ Hsp].
  fold (string_of_N n) in Hsp.
  assert (Hcap : Re.capture_num false (string_of_N n) = Some (string_of_N n)).
  { unfold Re.capture_num. rewrite Hsp. cbn [fst]. rewrite Hs.
    destruct c as [b0 b1 b2 b3 b4 b5 b6 b7].
    destruct b0, b1, b2, b3, b4, b5, b6, b7;
      first [discriminate Hc | reflexivity]. }
  split; [|split].
  - unfold line_F.
    change (search Re.F_word ("G1 F" ++ string_of_N n)%string)
      with (match Re.capture_num false (string_of_N n) with
            | Some r => Some r
            | None => search Re.F_word (string_of_N n)
            end).
    rewrite Hcap. cbn [option_map]. rewrite Number_string_of_N. reflexivity.
  - reflexivity.
  - unfold line_Z.
    change (search Re.Z_word ("G1 F" ++ string_of_N n)%string)
      with (search Re.Z_word (string_of_N n)).
    rewrite (search_past Re.Z_word is_digit)
      by (intros c0 u H; apply (digit_is_no_word c0 u H)).
    unfold string_of_N.
    destruct (span_digits_uint (N.to_uint n)) as [-> _]. reflexivity.
Qed.

(** X8. The feed-restore line written for a tracked feed reads back,
    through the patterns of the loop, as a cutting move (mode 1) without a Z
    word whose feed is the tracked feed rounded to the nearest integer.
    This is stated for a feed given by a numeral of at most 15 significant
    digits, m / 10^e with m below 10^15: there the double nearest to the
    numeral rounds to the same integer as the numeral itself, and the
    integer is printed and read back digit for digit.  For NaN the line is
    "G1 FNaN" and carries no F word at all. *)
Theorem restore_line_read_back (m : N) (e : nat) :
  (m < 10 ^ 15)%N ->
  line_F (restore_line (Val (Z.of_N m # pow10 e))) =
    Some (Val (Z.of_N (Z.to_N (Qfloor ((Z.of_N m # pow10 e) + (1 # 2)))) # 1)) /\
  line_G (restore_line (Val (Z.of_N m # pow10 e))) = Some 1%N /\
  line_Z (restore_line (Val (Z.of_N m # pow10 e))) = None /\
  line_F (restore_line NaN) = None.
Proof.
  intros _. unfold restore_line, toFixed0.
  assert (Hq : Qle_bool 0 (Z.of_N m # pow10 e) = true).
  { unfold Qle_bool. cbn [Qnum Qden]. apply Z.leb_le. lia. }
  rewrite Hq.
  destruct (line_F_of_digits (Z.to_N (Qfloor ((Z.of_N m # pow10 e) + (1 # 2)))))
    as (HF & HG & HZ).
  repeat split; auto.
Qed.

Lemma restore_line_read_back_witness :
  (2996 < 10 ^ 15)%N /\
  line_F (restore_line (Val (2996 # 10))) = Some (Val (300 # 1)) /\
  line_G (restore_line (Val (2996 # 10))) = Some 1%N.
Proof.
  split; [reflexivity|].
  destruct (restore_line_read_back 2996 1 eq_refl) as (HF & HG & _).
  split; [exact HF | exact HG].
Defined.

(** ** Entering the job menu *)

Lemma OptimizeGCode_with_again delay d :
  OptimizeGCode_with delay (final_doc (OptimizeGCode_with delay d)) =
  mkResult (final_doc (OptimizeGCode_with delay d)) Completed false.
Proof.
  destruct (find_marker d (length d) 0) as [d'| |] eqn:Hscan.
  - apply OptimizeGCode_with_unmarked.
    rewrite (OptimizeGCode_with_rescan delay d d' Hscan). discriminate.
  - rewrite (OptimizeGCode_with_unmarked delay d) by (rewrite Hscan; discriminate).
    apply OptimizeGCode_with_unmarked. cbn [final_doc]. rewrite Hscan. discriminate.
  - rewrite (OptimizeGCode_with_unmarked delay d) by (rewrite Hscan; discriminate).
    apply OptimizeGCode_with_unmarked. cbn [final_doc]. rewrite Hscan. discriminate.
Qed.

Lemma Part2_accept toolName g :
  accept_all (OnEnterJobMenuPart2 toolName g) g = Some toolName /\
  dialogs (OnEnterJobMenuPart2 toolName g) g =
    match g with
    | Some last => if String.eqb last toolName then [] else ["New tool requested"]
    | None => []
    end.
Proof.
  unfold OnEnterJobMenuPart2. destruct g as [last|]; [|split; reflexivity].
  destruct (String.eqb last toolName); split; reflexivity.
Qed.

Lemma menu_without_tool delay limit offsetZ d g :
  GetToolInfo d = None ->
  status (OptimizeGCode_with delay d) = Completed ->
  reply (OnEnterJobMenu_with delay limit offsetZ d g) = Some (Entered g).
Proof.
  intros Htool Hst. unfold OnEnterJobMenu_with.
  rewrite Hst, tool_info_stable, Htool. reflexivity.
Qed.

Lemma menu_with_tool delay limit offsetZ d g t :
  GetToolInfo d = Some t ->
  status (OptimizeGCode_with delay d) = Completed ->
  exists r,
    reply (OnEnterJobMenu_with delay limit offsetZ d g) = Some r /\
    accept_all r g = Some (toolName t) /\
    (dialogs r g = tool_change_dialogs t g \/
     dialogs r g = "Low Z Warning" :: tool_change_dialogs t g) /\
    (limit = None -> dialogs r g = tool_change_dialogs t g).
Proof.
  intros Htool Hst. unfold OnEnterJobMenu_with, tool_change_dialogs.
  rewrite Hst, tool_info_stable, Htool. cbn [reply].
  destruct (Part2_accept (toolName t) g) as [Hacc Hdia].
  destruct (z_allowed limit (minZ t) offsetZ) eqn:Hz; eexists;
    (split; [reflexivity|]).
  - split; [exact Hacc|]. split; [left; exact Hdia|]. intros _. exact Hdia.
  - cbn [dialogs accept_all]. rewrite Hdia.
    split; [exact Hacc|]. split; [right; reflexivity|].
    intros ->. discriminate Hz.
Qed.

(** X9. A program without a tool comment enters the job menu at once: when
    the rewrite runs to its end, the callback is called without any dialog
    and the remembered tool stays as it was, whatever the Z limit and the
    machine offset are. *)
Theorem job_menu_without_tool (delay : N) (limit : option jsnum) (offsetZ : jsnum)
    (d : document) (g : option string) :
  GetToolInfo d = None ->
  status (OptimizeGCode_with delay d) = Completed ->
  reply (OnEnterJobMenu_with delay limit offsetZ d g) = Some (Entered g).
Proof. apply menu_without_tool. Qed.

Lemma job_menu_without_tool_witness :
  reply (OnEnterJobMenu_with 3 MACHINE_MIN_Z (Val (0 # 1)) scenario (Some "(Router)")) =
  Some (Entered (Some "(Router)")).
Proof. apply job_menu_without_tool; reflexivity. Defined.

(** X10. For a program whose first tool comment gives the tool [t], when
    the rewrite runs to its end: the tool-change dialog is shown exactly
    when another tool name is remembered; the only other dialog there can be
    is the Low Z dialog, which then comes first, and there is none when the
    Z limit is disabled; and once the user has pressed the left button of
    each dialog shown, the callback has been called and the remembered tool
    is the name of [t]. *)
Theorem job_menu_with_tool (delay : N) (limit : option jsnum) (offsetZ : jsnum)
    (d : document) (g : option string) (t : ToolInfo) :
  GetToolInfo d = Some t ->
  status (OptimizeGCode_with delay d) = Completed ->
  exists r,
    reply (OnEnterJobMenu_with delay limit offsetZ d g) = Some r /\
    accept_all r g = Some (toolName t) /\
    (dialogs r g = tool_change_dialogs t g \/
     dialogs r g = "Low Z Warning" :: tool_change_dialogs t g) /\
    (limit = None -> dialogs r g = tool_change_dialogs t g).
Proof. apply menu_with_tool. Qed.

Lemma job_menu_with_tool_witness :
  exists r,
    reply (OnEnterJobMenu_with 3 None (Val (-95 # 1))
             ["(T1 Router ZMIN=-10.5)"; "G21"] (Some "(Drill)")) = Some r /\
    accept_all r (Some "(Drill)") = Some "(Router10.5)" /\
    dialogs r (Some "(Drill)") = ["New tool requested"].
Proof.
  destruct (job_menu_with_tool 3 None (Val (-95 # 1))
              ["(T1 Router ZMIN=-10.5)"; "G21"] (Some "(Drill)")
              {| toolName := "(Router10.5)"; minZ := Some (Val (-105 # 10)) |}
              eq_refl eq_refl) as (r & Hr & Hacc & _ & Hnone).
  exists r. split; [exact Hr|]. split; [exact Hacc|]. exact (Hnone eq_refl).
Defined.

(** X11. A tool comment without a usable ZMIN number fails the Z check
    whenever a limit is set: the sum with the offset is NaN, the comparison
    is false, and the Low Z dialog is shown whatever the offset is. *)
Theorem job_menu_without_ZMIN (delay : N) (limit offsetZ : jsnum)
    (d : document) (g : option string) (t : ToolInfo) :
  GetToolInfo d = Some t ->
  to_number (minZ t) = NaN ->
  status (OptimizeGCode_with delay d) = Completed ->
  exists onLeft,
    reply (OnEnterJobMenu_with delay (Some limit) offsetZ d g) =
    Some (Dialog "Low Z Warning" ["Gcode exceeds the"; "Z axis limit."]
            "!IGNORE" "Back" onLeft).
Proof.
  intros Htool Hnan Hst. unfold OnEnterJobMenu_with.
  rewrite Hst, tool_info_stable, Htool. cbn [reply].
  unfold z_allowed, at_least, plus. rewrite Hnan. cbn.
  eexists. reflexivity.
Qed.

Lemma job_menu_without_ZMIN_witness :
  exists onLeft,
    reply (OnEnterJobMenu_with 3 (Some (Val (-102 # 1))) (Val (50 # 1))
             ["(T1 Router)"; "G21"] None) =
    Some (Dialog "Low Z Warning" ["Gcode exceeds the"; "Z axis limit."]
            "!IGNORE" "Back" onLeft).
Proof.
  apply (job_menu_without_ZMIN 3 (Val (-102 # 1)) (Val (50 # 1))
           ["(T1 Router)"; "G21"] None (tool_of_line "(T1 Router)"));
    reflexivity.
Defined.

Lemma job_menu_doc delay limit offsetZ d g :
  status (OptimizeGCode_with delay d) = Completed ->
  editor_doc (OnEnterJobMenu_with delay limit offsetZ d g) =
  final_doc (OptimizeGCode_with delay d).
Proof. intros Hst. unfold OnEnterJobMenu_with. rewrite Hst. reflexivity. Qed.

(** X12. Entering the job menu a second time with the same program asks no
    tool-change question: after a first entry in which the rewrite ran to
    its end and the user accepted every dialog, a second call leaves the
    editor document as the first left it, shows no "New tool requested"
    dialog, and leaves the remembered tool unchanged. *)
Theorem job_menu_second_entry (delay : N) (limit : option jsnum) (offsetZ : jsnum)
    (d : document) (g : option string) (r : response) :
  reply (OnEnterJobMenu_with delay limit offsetZ d g) = Some r ->
  exists r',
    OnEnterJobMenu_with delay limit offsetZ
      (editor_doc (OnEnterJobMenu_with delay limit offsetZ d g)) (accept_all r g) =
    mkJobMenu (editor_doc (OnEnterJobMenu_with delay limit offsetZ d g)) (Some r') /\
    ~ In "New tool requested" (dialogs r' (accept_all r g)) /\
    accept_all r' (accept_all r g) = accept_all r g.
Proof.
  intros Hreply.
  assert (Hst : status (OptimizeGCode_with delay d) = Completed).
  { unfold OnEnterJobMenu_with in Hreply.
    destruct (status (OptimizeGCode_with delay d)); [reflexivity | discriminate..]. }
  pose proof (job_menu_doc delay limit offsetZ d g Hst) as Hdoc.
  rewrite Hdoc.
  set (d1 := final_doc (OptimizeGCode_with delay d)).
  assert (Hst1 : status (OptimizeGCode_with delay d1) = Completed)
    by (unfold d1; rewrite OptimizeGCode_with_again; reflexivity).
  assert (Hd1 : final_doc (OptimizeGCode_with delay d1) = d1)
    by (unfold d1; rewrite OptimizeGCode_with_again; reflexivity).
  assert (Htool1 : GetToolInfo d1 = GetToolInfo d)
    by apply tool_info_stable.
  destruct (GetToolInfo d) as [t|] eqn:Htool.
  - destruct (menu_with_tool delay limit offsetZ d g t Htool Hst)
      as (r0 & Hr0 & Hacc & _).
    assert (r0 = r) as -> by congruence. rewrite Hacc.
    destruct (menu_with_tool delay limit offsetZ d1 (Some (toolName t)) t
                Htool1 Hst1) as (r' & Hr' & Hacc' & Hdia & _).
    exists r'. split; [|split; [|exact Hacc']].
    + pose proof (job_menu_doc delay limit offsetZ d1 (Some (toolName t)) Hst1) as He.
      rewrite Hd1 in He.
      destruct (OnEnterJobMenu_with delay limit offsetZ d1 (Some (toolName t)))
        as [ed rp]. cbn [editor_doc reply] in *. congruence.
    + unfold tool_change_dialogs in Hdia. rewrite String.eqb_refl in Hdia.
      destruct Hdia as [-> | ->]; simpl; [tauto|].
      intros [H | []]. discriminate H.
  - pose proof (menu_without_tool delay limit offsetZ d g Htool Hst) as Hr0.
    assert (r = Entered g) as -> by congruence. cbn [accept_all].
    exists (Entered g). split; [|split; [simpl; tauto | reflexivity]].
    unfold OnEnterJobMenu_with. rewrite Hst1, Hd1, Htool1. reflexivity.
Qed.

Lemma job_menu_second_entry_witness :
  exists r',
    OnEnterJobMenu_with 3 MACHINE_MIN_Z (Val (0 # 1))
      (editor_doc (OnEnterJobMenu_with 3 MACHINE_MIN_Z (Val (0 # 1))
                     ["(T1 Router ZMIN=-10.5)"; "G21"] (Some "(Drill)")))
      (accept_all (OnEnterJobMenuPart2 "(Router10.5)" (Some "(Drill)")) (Some "(Drill)")) =
    mkJobMenu
      (editor_doc (OnEnterJobMenu_with 3 MACHINE_MIN_Z (Val (0 # 1))
                     ["(T1 Router ZMIN=-10.5)"; "G21"] (Some "(Drill)")))
      (Some r') /\
    ~ In "New tool requested"
        (dialogs r' (accept_all (OnEnterJobMenuPart2 "(Router10.5)" (Some "(Drill)"))
                       (Some "(Drill)"))) /\
    accept_all r' (accept_all (OnEnterJobMenuPart2 "(Router10.5)" (Some "(Drill)"))
                     (Some "(Drill)")) =
      accept_all (OnEnterJobMenuPart2 "(Router10.5)" (Some "(Drill)")) (Some "(Drill)").
Proof.
  apply (job_menu_second_entry 3 MACHINE_MIN_Z (Val (0 # 1))
           ["(T1 Router ZMIN=-10.5)"; "G21"] (Some "(Drill)")
           (OnEnterJobMenuPart2 "(Router10.5)" (Some "(Drill)"))).
  reflexivity.
Defined.

(** ** The line count *)

Lemma body_lengths delay s :
  lineCount s = length (doc s) ->
  lineCount (completion_state (body delay s)) =
    length (doc (completion_state (body delay s))) /\
  length (doc s) <= length (doc (completion_state (body delay s))).
Proof.
  intros H. unfold completion_state. body_cases; cbn [lineCount doc];
    unfold replaceLine;
    rewrite ?length_insertFullLines, ?length_insert; lia.
Qed.

Lemma loop_lengths delay fuel s s1 o :
  lineCount s = length (doc s) ->
  loop delay fuel s = (s1, o) ->
  lineCount s1 = length (doc s1) /\ length (doc s) <= length (doc s1).
Proof.
  revert s; induction fuel as [|fuel IH]; intros s Hs; cbn [loop].
  - destruct (lineIdx s <? lineCount s); intros [= <- <-]; auto.
  - destruct (lineIdx s <? lineCount s); [|intros [= <- <-]; auto].
    pose proof (body_lengths delay s Hs) as [H1 H2].
    destruct (body delay s) as [s'|s']; cbn [completion_state] in *.
    + intros Hloop. destruct (IH (advance s') H1 Hloop) as [H3 H4].
      cbn [advance doc] in H4. split; [exact H3 | lia].
    + intros [= <- <-]. auto.
Qed.

(** X13. The line count that the loop keeps by hand ([lineCount++] at each
    insertion) is the length of the document whenever the loop stops, also
    when it stops with the TypeError, and the document is never shorter than
    the one the loop started from. *)
Theorem lineCount_is_document_length (delay : N) (fuel : nat) (d : document)
    (s : state) (o : outcome) :
  loop delay fuel (initial d (length d)) = (s, o) ->
  lineCount s = length (doc s) /\ length d <= length (doc s).
Proof.
  intros H. exact (loop_lengths delay fuel (initial d (length d)) s o eq_refl H).
Qed.

Lemma lineCount_is_document_length_witness :
  lineCount (fst (loop 3 8 (initial ["M3 S12000"; "G1 Z5 F100"; "G1 Z-5"; "G1 Z5"] 4))) =
  length (doc (fst (loop 3 8 (initial ["M3 S12000"; "G1 Z5 F100"; "G1 Z-5"; "G1 Z5"] 4)))).
Proof.
  exact (proj1 (lineCount_is_document_length 3 8
                  ["M3 S12000"; "G1 Z5 F100"; "G1 Z-5"; "G1 Z5"] _ _
                  (surjective_pairing _))).
Defined.

(** ** The tool index *)

Lemma span_digits_then_space d rest :
  span is_digit (NilEmpty.string_of_uint d ++ String " " rest)%string =
  (NilEmpty.string_of_uint d, String " " rest).
Proof.
  induction d; cbn [NilEmpty.string_of_uint append span]; [reflexivity|..];
    (change (is_digit _) with true at 1; cbv iota; rewrite IHd; reflexivity).
Qed.

(** X14. The tool name does not depend on the tool index: for a tool comment
    "(T<n> <rest>" the name is computed from "(<rest>" alone, so that two
    comments that differ only in the index give the same name. *)
Theorem toolName_ignores_index (n : N) (rest : string) :
  toolName (tool_of_line ("(T" ++ string_of_N n ++ " " ++ rest)) =
  replace_first Re.ZMIN_tail "" ("(" ++ rest).
Proof.
  unfold tool_of_line. cbn [toolName]. f_equal.
  destruct (string_of_N_first n) as (c & r & Hs & Hc).
  change ("(T" ++ string_of_N n ++ " " ++ rest)%string
    with (String "(" (String "T" (string_of_N n ++ String " " rest))).
  cbn [replace_first Re.T_index].
  unfold string_of_N. rewrite span_digits_then_space.
  fold (string_of_N n). rewrite Hs. reflexivity.
Qed.

(** ** Programs without cutting moves *)

Lemma with_dwells_snoc delay l x :
  with_dwells delay (l ++ [x]) =
  with_dwells delay l ++
  (if tracked delay x || is_comment x then [x] else [x; dwell_line delay]).
Proof.
  unfold with_dwells. rewrite flat_map_app. simpl. rewrite app_nil_r. reflexivity.
Qed.

Lemma not_cutting_first_plunge g fz z lastZ :
  is_cutting g = false ->
  first_plunge g fz z lastZ = false /\ at_or_above g fz z lastZ = false.
Proof. intros H. unfold first_plunge, at_or_above. rewrite H. split; reflexivity. Qed.

Lemma quiet_step delay d0 s :
  no_cutting_word delay d0 ->
  quiet delay d0 s ->
  lineIdx s < lineCount s ->
  exists s', body delay s = Normal s' /\ quiet delay d0 (advance s').
Proof.
  intros Hno (Hcount & Hg & Hr & Ho & k & Hdrop & Htake) Hlt.
  destruct (drop_in_range (doc s) (lineIdx s)) as [r Hrow]; [lia|].
  set (x := getLine (doc s) (lineIdx s)) in *.
  assert (Hk : d0 !! k = Some x).
  { pose proof (lookup_drop d0 k 0) as L.
    rewrite <- Hdrop, Hrow, Nat.add_0_r in L. symmetry. exact L. }
  assert (Hi : doc s !! lineIdx s = Some x).
  { pose proof (lookup_drop (doc s) (lineIdx s) 0) as L.
    rewrite Hrow, Nat.add_0_r in L. symmetry. exact L. }
  assert (Hnext : drop (S (lineIdx s)) (doc s) = drop (S k) d0).
  { pose proof (drop_S _ _ _ Hk) as E1. pose proof (drop_S _ _ _ Hi) as E2.
    rewrite <- Hdrop, E2 in E1. congruence. }
  pose proof (take_S_r _ _ _ Hk) as Htk.
  pose proof (take_S_r _ _ _ Hi) as Hkeep.
  assert (Hx : tracked delay x = true -> is_cutting (line_G x) = false).
  { unfold no_cutting_word in Hno. rewrite Forall_forall in Hno.
    apply Hno. eapply list_elem_of_lookup_2; eauto. }
  unfold body. fold x.
  destruct (startsWith x "(") eqn:Hc.
  { eexists. split; [reflexivity|].
    split; [exact Hcount|]. do 3 (split; [assumption|]).
    exists (S k). cbn [advance lineIdx doc]. split; [exact Hnext|].
    rewrite Hkeep, Htk, with_dwells_snoc, Htake.
    unfold is_comment. rewrite Hc, orb_true_r. reflexivity. }
  destruct ((0 <? delay)%N && contains x "M3") eqn:Hm.
  { eexists. split; [reflexivity|]. unfold quiet.
    cbn [advance lineIdx doc lineCount curG restoreF optimized].
    split; [rewrite length_insertFullLines; lia|].
    do 3 (split; [assumption|]).
    exists (S k). rewrite Nat.add_1_r. split.
    - rewrite drop_insertFullLines by lia. exact Hnext.
    - rewrite take_insertFullLines by lia.
      rewrite Hkeep, Htk, with_dwells_snoc, Htake, <- app_assoc.
      unfold tracked, is_comment. rewrite Hc, Hm. reflexivity. }
  pose proof (tracked_command delay x Hc Hm) as Ht.
  assert (Hg' : is_cutting (overwrite (line_G x) (curG s)) = false).
  { specialize (Hx Ht). destruct (line_G x); [exact Hx | exact Hg]. }
  destruct (not_cutting_first_plunge _
              (if startsWith x BLOCK_START then None else feedZ s)
              (overwrite (line_Z x) (curZ s)) (curZ s) Hg') as [-> ->].
  rewrite Hr.
  eexists. split; [reflexivity|].
  split; [exact Hcount|]. do 3 (split; [first [assumption | reflexivity]|]).
  exists (S k). cbn [advance lineIdx doc]. split; [exact Hnext|].
  rewrite Hkeep, Htk, with_dwells_snoc, Htake, Ht. reflexivity.
Qed.

Lemma loop_quiet delay d0 fuel s :
  no_cutting_word delay d0 ->
  quiet delay d0 s ->
  budget s <= fuel ->
  exists s1, loop delay fuel s = (s1, Completed) /\ quiet delay d0 s1 /\
             lineCount s1 <= lineIdx s1.
Proof.
  intros Hno. revert s; induction fuel as [|fuel IH]; intros s Hs Hb; cbn [loop].
  - destruct (Nat.ltb_spec (lineIdx s) (lineCount s)) as [Hlt|Hge].
    + unfold budget in Hb. lia.
    + eauto.
  - destruct (Nat.ltb_spec (lineIdx s) (lineCount s)) as [Hlt|Hge]; [|eauto].
    destruct (quiet_step delay d0 s Hno Hs Hlt) as (s' & Hbody & Hq).
    rewrite Hbody. apply IH; [exact Hq|].
    pose proof (body_budget _ _ _ Hlt Hbody). lia.
Qed.

Lemma no_cutting_word_tagged delay l l' :
  scan_lines l = Marked l' -> no_cutting_word delay l -> no_cutting_word delay l'.
Proof.
  intros Hscan.
  destruct (scan_lines_Marked _ _ Hscan) as (pre & m & post & -> & -> & Hm & _).
  unfold no_cutting_word. rewrite !Forall_app, !Forall_cons.
  intros (Hpre & _ & Hpost). split; [exact Hpre|]. split; [|exact Hpost].
  intros Ht. destruct (tagged_is_done _ Hm) as [Hdone _].
  rewrite (comment_not_tracked delay _ (block_done_is_comment _ Hdone)) in Ht.
  discriminate.
Qed.

(** X15. A program in which no command line starts with the G1 word is
    never promoted and gets no feed-restore line: the call runs to its end,
    logs nothing, and the resulting program is the program with the tag on
    its first block-start line and, with a positive delay, the dwell line
    after each command line that contains "M3" (or the program itself when
    the scan finds no block-start line to tag). *)
Theorem OptimizeGCode_without_cutting_moves (delay : N) (d : document) :
  no_cutting_word delay d ->
  OptimizeGCode_with delay d =
  mkResult
    match find_marker d (length d) 0 with
    | Marked d' => with_dwells delay d'
    | AlreadyOptimized | NoMarker => d
    end
    Completed false.
Proof.
  intros Hno. unfold OptimizeGCode_with.
  destruct (find_marker d (length d) 0) as [d'| |] eqn:Hscan; try reflexivity.
  rewrite find_marker_whole in Hscan.
  pose proof (scan_lines_length _ _ Hscan) as Hlen.
  pose proof (no_cutting_word_tagged delay _ _ Hscan Hno) as Hno'.
  rewrite <- Hlen.
  assert (Hq : quiet delay d' (initial d' (length d'))).
  { split; [reflexivity|]. do 3 (split; [reflexivity|]).
    exists 0. split; reflexivity. }
  destruct (loop_quiet delay d' (2 * length d') _ Hno' Hq)
    as (s1 & -> & (Hcount & _ & _ & Ho & k & Hdrop & Htake) & Hend).
  { unfold budget. simpl. lia. }
  rewrite Ho. f_equal.
  assert (Hk : length d' <= k).
  { apply drop_nil_inv. rewrite <- Hdrop. apply drop_ge. lia. }
  rewrite take_ge in Htake by lia. rewrite take_ge in Htake by lia.
  exact Htake.
Qed.

Lemma OptimizeGCode_without_cutting_moves_witness :
  OptimizeGCode_with 3
    ["(When using Fusion 360 for Personal Use)"; "M3 S12000"; "G0 Z5"; "G0 X10 Y10";
     "(done)"; "M30"] =
  mkResult
    ["(OPTIMIZED: When using Fusion 360 for Personal Use)"; "M3 S12000"; "G4 P3";
     "G0 Z5"; "G0 X10 Y10"; "(done)"; "M30"; "G4 P3"]
    Completed false.
Proof.
  apply (OptimizeGCode_without_cutting_moves 3
           ["(When using Fusion 360 for Personal Use)"; "M3 S12000"; "G0 Z5";
            "G0 X10 Y10"; "(done)"; "M30"]).
  repeat constructor; discriminate.
Defined.

(** ** How often a line is read *)

Lemma visits_reps delay (d0 : document) fuel s k :
  lineCount s = length (doc s) ->
  drop (lineIdx s) (doc s) = drop k d0 ->
  exists reps : list nat,
    length reps <= length (drop k d0) /\
    Forall (fun r => r = 1 \/ r = 2) reps /\
    (restoreF s = false -> forall r rs, reps = r :: rs -> r = 1) /\
    map snd (visits delay fuel s) = concat (zip_with replicate reps (drop k d0)) /\
    (snd (loop delay fuel s) = Completed -> length reps = length (drop k d0)).
Proof.
  revert s k; induction fuel as [|fuel IH]; intros s k Hcount Hdrop;
    cbn [visits loop].
  - exists []. split; [simpl; lia|]. split; [constructor|].
    split; [discriminate|]. split; [destruct (lineIdx s <? lineCount s); reflexivity|].
    destruct (Nat.ltb_spec (lineIdx s) (lineCount s)); [discriminate|].
    intros _. rewrite <- Hdrop, drop_ge by lia. reflexivity.
  - destruct (Nat.ltb_spec (lineIdx s) (lineCount s)) as [Hlt|Hge].
    2:{ exists []. split; [simpl; lia|]. split; [constructor|].
        split; [discriminate|]. split; [reflexivity|].
        intros _. rewrite <- Hdrop, drop_ge by lia. reflexivity. }
    destruct (drop_in_range (doc s) (lineIdx s)) as [r Hrow]; [lia|].
    set (x := getLine (doc s) (lineIdx s)) in *.
    assert (Hk : d0 !! k = Some x).
    { pose proof (lookup_drop d0 k 0) as L.
      rewrite <- Hdrop, Hrow, Nat.add_0_r in L. symmetry. exact L. }
    assert (Hi : doc s !! lineIdx s = Some x).
    { pose proof (lookup_drop (doc s) (lineIdx s) 0) as L.
      rewrite Hrow, Nat.add_0_r in L. symmetry. exact L. }
    pose proof (drop_S _ _ _ Hk) as Hd0.
    pose proof (drop_S _ _ _ Hi) as Hdoc.
    destruct (body delay s) as [s'|s'] eqn:Hbody.
    + destruct (body_effect delay s s' Hcount Hlt Hbody) as (Hcount' & _).
      destruct (body_emits delay s s' x Hcount Hi Hbody)
        as [(out & _ & Hrows & _) | (Hr1 & Hr2 & _ & f & _ & Hrows)].
      * assert (Hnext : drop (lineIdx (advance s')) (doc (advance s')) = drop (S k) d0).
        { cbn [advance lineIdx doc]. rewrite Hrows.
          rewrite Hdoc, Hd0 in Hdrop. congruence. }
        destruct (IH (advance s') (S k) Hcount' Hnext)
          as (reps & Hlen & Hall & _ & Hvis & Hdone).
        exists (1 :: reps). rewrite Hd0. cbn [length zip_with map snd].
        split; [lia|]. split; [constructor; auto|].
        split; [intros _ r0 rs [= <- _]; reflexivity|].
        split; [rewrite Hvis; reflexivity|].
        intros Hc. rewrite (Hdone Hc). reflexivity.
      * assert (Hnext : drop (lineIdx (advance s')) (doc (advance s')) = drop k d0).
        { cbn [advance lineIdx doc]. rewrite Hrows. exact Hdrop. }
        destruct (IH (advance s') k Hcount' Hnext)
          as (reps & Hlen & Hall & Hfirst & Hvis & Hdone).
        rewrite Hd0 in *.
        destruct reps as [|r0 rs].
        -- exists [1]. cbn [length zip_with map snd concat replicate app].
           split; [lia|]. split; [constructor; auto|].
           split; [intros _ r1 rs1 [= <- _]; reflexivity|].
           split; [rewrite Hvis; reflexivity|].
           intros Hc. specialize (Hdone Hc). discriminate Hdone.
        -- assert (r0 = 1) as -> by (apply (Hfirst Hr2 r0 rs); reflexivity).
           exists (2 :: rs). cbn [length zip_with map snd concat replicate app] in *.
           split; [lia|].
           split; [constructor; [auto | inversion Hall; assumption]|].
           split; [intros Hr; congruence|].
           split; [rewrite Hvis; reflexivity|].
           intros Hc. specialize (Hdone Hc). lia.
    + exists [1]. rewrite Hd0. cbn [length zip_with map snd concat replicate app].
      split; [lia|]. split; [constructor; auto|].
      split; [intros _ r1 rs1 [= <- _]; reflexivity|].
      split; [reflexivity|]. discriminate.
Qed.

(** X4. The second loop reads the lines of the document it starts from in
    order, each of them once or twice and never a third time, however long
    it is allowed to run; when it runs to its end no line has been left
    out; and it always comes to its end or to the TypeError within twice as
    many passes as the document has lines. *)
Theorem each_line_read_once_or_twice (delay : N) (fuel : nat) (d : document) :
  (exists reps : list nat,
      length reps <= length d /\
      Forall (fun r => r = 1 \/ r = 2) reps /\
      map snd (visits delay fuel (initial d (length d))) =
        concat (zip_with replicate reps d) /\
      (snd (loop delay fuel (initial d (length d))) = Completed ->
       length reps = length d)) /\
  snd (loop delay (2 * length d) (initial d (length d))) <> Exhausted.
Proof.
  split; [|apply loop_never_exhausts].
  destruct (visits_reps delay d fuel (initial d (length d)) 0 eq_refl eq_refl)
    as (reps & Hlen & Hall & _ & Hvis & Hdone).
  exists reps. auto.
Qed.
